(** * EC2 cost report: the data pipeline of [ec2_cost_analysis_v2.py]

    A shallow embedding of the cost-analysis script: the two normalisers
    ([df_daily_total], [df_by_type]), the fallback aggregation
    ([derive_daily_from_type]), the summary ([analyze]), the data handed to
    the two charts ([plot_daily], [plot_by_type]), the report writer
    ([write_html]) and the driver ([main]).

    Modelling conventions.
    - A Python [float] is modelled by an exact rational ([Q]); rounding to
      binary64 is not modelled, so equalities between costs are stated with
      [==] and read "equal in exact arithmetic".  NaN and the infinities are
      outside the model.
    - A pandas [DataFrame] is the list of its rows in row order, or the frame
      without any column that [pd.DataFrame([])] builds.
    - Rows are sorted by insertion, which keeps rows with equal keys in
      their input order; pandas leaves that order unspecified, and no
      statement below depends on it.
    - Files are a map from paths to contents; a JSON file holds its parsed
      array and a chart image the data it draws.  Directories
      ([os.makedirs]) and the final [print] are not modelled.
    - Python exceptions are values of [exn], carried by [result].  Inputs on
      which the behaviour of the libraries is not modelled (exotic date or
      number syntax, non-string labels) end in [Unmodelled], about which no
      theorem says anything. *)

From Stdlib Require Import PrimFloat.
From Stdlib Require Import List String Ascii Bool Arith ZArith QArith Lia.
From Stdlib Require Import Permutation Sorted OrderedTypeEx DecimalString.
Import ListNotations.

Set Warnings "-register-all,-inexact-float".

Local Close Scope Q_scope.
Local Open Scope string_scope.

(* ------------------------------------------------------------------ *)
(** ** Exceptions and results *)

Inductive exn : Type :=
| KeyError (key : string)
| TypeError (msg : string)
| AttributeError (msg : string)
| IndexError (msg : string)
| FileNotFoundError (path : string)
| SystemExit (msg : string).

Inductive result (A : Type) : Type :=
| Ok (a : A)
| Raise (e : exn)
| Unmodelled (why : string).

Arguments Ok {A} a.
Arguments Raise {A} e.
Arguments Unmodelled {A} why.

Definition bind {A B} (c : result A) (k : A -> result B) : result B :=
  match c with
  | Ok a => k a
  | Raise e => Raise e
  | Unmodelled w => Unmodelled w
  end.

Notation "x <- c ;; k" := (bind c (fun x => k))
  (at level 61, c at next level, right associativity).

(** [for x in xs: rec.extend(f x)], stopping at the first exception. *)
Fixpoint for_each {A B} (f : A -> result (list B)) (xs : list A)
  : result (list B) :=
  match xs with
  | [] => Ok []
  | x :: xs' => ys <- f x ;; zs <- for_each f xs' ;; Ok (ys ++ zs)%list
  end.

Definition is_exception {A} (r : result A) : Prop :=
  exists e, r = Raise e.

(* ------------------------------------------------------------------ *)
(** ** JSON values, as [json.load] returns them *)

Inductive json : Type :=
| JNull
| JBool (b : bool)
| JNum (q : Q)
| JStr (s : string)
| JArr (items : list json)
| JObj (fields : list (string * json)).

(** A [dict] is given by its items; a key occurs once. *)
Fixpoint dict_get (k : string) (fields : list (string * json)) : option json :=
  match fields with
  | [] => None
  | (k', v) :: rest => if String.eqb k k' then Some v else dict_get k rest
  end.

(** [v[k]] for a string key [k]. *)
Definition getitem (v : json) (k : string) : result json :=
  match v with
  | JObj fields =>
      match dict_get k fields with
      | Some x => Ok x
      | None => Raise (KeyError k)
      end
  | JArr _ => Raise (TypeError "list indices must be integers or slices, not str")
  | JStr _ => Raise (TypeError "string indices must be integers, not 'str'")
  | _ => Raise (TypeError "object is not subscriptable")
  end.

(** [v.get(k)]: [None] when the key is absent. *)
Definition dict_get_method (v : json) (k : string) : result (option json) :=
  match v with
  | JObj fields => Ok (dict_get k fields)
  | _ => Raise (AttributeError "object has no attribute 'get'")
  end.

(** Strings are UTF-8 byte strings; a Python character is a lead byte with
    the continuation bytes that follow it. *)
Definition is_continuation (c : ascii) : bool :=
  let n := nat_of_ascii c in (128 <=? n)%nat && (n <? 192)%nat.

Definition flush (cur : string) : list string :=
  if String.eqb cur "" then [] else [cur].

Fixpoint characters (cur : string) (s : string) : list string :=
  match s with
  | EmptyString => flush cur
  | String c s' =>
      if is_continuation c then characters (cur ++ String c EmptyString) s'
      else (flush cur ++ characters (String c EmptyString) s')%list
  end.

(** [v[0]]. *)
Definition getitem0 (v : json) : result json :=
  match v with
  | JArr (x :: _) => Ok x
  | JArr [] => Raise (IndexError "list index out of range")
  | JStr s =>
      match characters "" s with
      | c :: _ => Ok (JStr c)
      | [] => Raise (IndexError "string index out of range")
      end
  | JObj _ => Raise (KeyError "0")
  | _ => Raise (TypeError "object is not subscriptable")
  end.

(** Python truth value. *)
Definition truthy (v : json) : bool :=
  match v with
  | JNull => false
  | JBool b => b
  | JNum q => negb (Qeq_bool q 0)
  | JStr s => negb (String.eqb s "")
  | JArr items => match items with [] => false | _ => true end
  | JObj fields => match fields with [] => false | _ => true end
  end.

(** [for g in v]: the items a [for] loop visits. *)
Definition iterate (v : json) : result (list json) :=
  match v with
  | JArr items => Ok items
  | JObj fields => Ok (map (fun kv => JStr (fst kv)) fields)
  | JStr s => Ok (map JStr (characters "" s))
  | _ => Raise (TypeError "object is not iterable")
  end.

(* ------------------------------------------------------------------ *)
(** ** Numbers: [float(x)] *)

Definition digit_of (c : ascii) : option nat :=
  let n := nat_of_ascii c in
  if (48 <=? n)%nat && (n <=? 57)%nat then Some (n - 48)%nat else None.

(** Value of a run of decimal digits, most significant first. *)
Fixpoint digits_value (acc : N) (s : string) : option N :=
  match s with
  | EmptyString => Some acc
  | String c s' =>
      match digit_of c with
      | Some d => digits_value (acc * 10 + N.of_nat d) s'
      | None => None
      end
  end.

(** Split at the first ['.']. *)
Fixpoint split_dot (s : string) : string * option string :=
  match s with
  | EmptyString => (EmptyString, None)
  | String c s' =>
      if Ascii.eqb c "."%char then (EmptyString, Some s')
      else let '(a, b) := split_dot s' in (String c a, b)
  end.

Definition unsigned_decimal (s : string) : option Q :=
  match split_dot s with
  | (ip, None) =>
      if String.eqb ip "" then None
      else match digits_value 0 ip with
           | Some n => Some (inject_Z (Z.of_N n))
           | None => None
           end
  | (ip, Some fp) =>
      if String.eqb ip "" && String.eqb fp "" then None
      else match digits_value 0 ip, digits_value 0 fp with
           | Some n, Some m =>
               let den := Pos.pow 10 (Pos.of_nat (String.length fp)) in
               let den := if String.eqb fp "" then 1%positive else den in
               Some (Qmake (Z.of_N n * Zpos den + Z.of_N m) den)
           | _, _ => None
           end
  end.

(** Plain decimal literals: an optional sign, digits, an optional fraction. *)
Definition parse_decimal (s : string) : option Q :=
  match s with
  | String "-"%char s' => option_map Qopp (unsigned_decimal s')
  | String "+"%char s' => unsigned_decimal s'
  | _ => unsigned_decimal s
  end.

(** [float(v)].  A string is read as a plain decimal and keeps its exact
    value; the other syntaxes Python accepts (exponents, [inf], [nan],
    underscores, blanks) are not modelled. *)
Definition float (v : json) : result Q :=
  match v with
  | JNum q => Ok q
  | JBool b => Ok (if b then 1%Q else 0%Q)
  | JStr s =>
      match parse_decimal s with
      | Some q => Ok q
      | None => Unmodelled "float(str) beyond plain decimal literals"
      end
  | _ => Raise (TypeError "float() argument must be a string or a real number")
  end.

(* ------------------------------------------------------------------ *)
(** ** Dates: [pd.to_datetime] and [strftime] *)

(** A pandas [Timestamp] at midnight, as Cost Explorer period starts are. *)
Record Timestamp : Type := mkDate { year : nat; month : nat; day : nat }.

Definition leap (y : nat) : bool :=
  ((y mod 4 =? 0) && negb (y mod 100 =? 0) || (y mod 400 =? 0))%nat.

Definition days_in_month (y m : nat) : nat :=
  match m with
  | 1 | 3 | 5 | 7 | 8 | 10 | 12 => 31
  | 4 | 6 | 9 | 11 => 30
  | 2 => if leap y then 29 else 28
  | _ => 0
  end.

(** Calendar dates inside the range a nanosecond [Timestamp] covers. *)
Definition valid_date (d : Timestamp) : bool :=
  ((1678 <=? year d) && (year d <=? 2261) &&
   (1 <=? month d) && (month d <=? 12) &&
   (1 <=? day d) && (day d <=? days_in_month (year d) (month d)))%nat.

Definition digits2 (a b : ascii) : option nat :=
  match digit_of a, digit_of b with
  | Some x, Some y => Some (10 * x + y)%nat
  | _, _ => None
  end.

(** ISO dates [YYYY-MM-DD]. *)
Definition parse_iso_date (s : string) : option Timestamp :=
  match s with
  | String y1 (String y2 (String y3 (String y4 (String "-"
      (String m1 (String m2 (String "-"
        (String d1 (String d2 EmptyString))))))))) =>
      match digits2 y1 y2, digits2 y3 y4, digits2 m1 m2, digits2 d1 d2 with
      | Some yh, Some yl, Some m, Some d =>
          let t := mkDate (100 * yh + yl) m d in
          if valid_date t then Some t else None
      | _, _, _, _ => None
      end
  | _ => None
  end.

(** One element of [pd.to_datetime(column)].  Only ISO date strings are
    modelled. *)
Definition to_datetime (v : json) : result Timestamp :=
  match v with
  | JStr s =>
      match parse_iso_date s with
      | Some t => Ok t
      | None => Unmodelled "to_datetime beyond ISO dates"
      end
  | _ => Unmodelled "to_datetime of a non-string"
  end.

Definition digit_char (n : nat) : ascii := ascii_of_nat (48 + n mod 10).

Definition pad2 (n : nat) : string :=
  String (digit_char (n / 10)) (String (digit_char n) EmptyString).

(** [t.strftime("%Y-%m-%d")]. *)
Definition strftime (t : Timestamp) : string :=
  pad2 (year t / 100) ++ pad2 (year t) ++ "-" ++ pad2 (month t) ++ "-"
  ++ pad2 (day t).

Definition date_compare (a b : Timestamp) : comparison :=
  match Nat.compare (year a) (year b) with
  | Eq => match Nat.compare (month a) (month b) with
          | Eq => Nat.compare (day a) (day b)
          | c => c
          end
  | c => c
  end.

Definition date_leb (a b : Timestamp) : bool :=
  match date_compare a b with Gt => false | _ => true end.

(* ------------------------------------------------------------------ *)
(** ** Data frames *)

(** Rows of the two tables.  [D] is the type of the date column: a raw JSON
    value while the records are collected, a [Timestamp] once
    [pd.to_datetime] has been applied; likewise [L] for the label column. *)
Record CostRow (D : Type) : Type := mkCost { Date : D; Cost : Q }.
Record TypeRow (D L : Type) : Type :=
  mkType { TDate : D; InstanceType : L; TCost : Q }.

Arguments mkCost {D} _ _.
Arguments Date {D} _.
Arguments Cost {D} _.
Arguments mkType {D L} _ _ _.
Arguments TDate {D L} _.
Arguments InstanceType {D L} _.
Arguments TCost {D L} _.

Definition CostPoint : Type := CostRow Timestamp.
Definition CostByTypePoint : Type := TypeRow Timestamp string.

(** A frame is the list of its rows, or has no column at all. *)
Inductive DataFrame (R : Type) : Type :=
| NoColumns
| Table (rows : list R).

Arguments NoColumns {R}.
Arguments Table {R} rows.

(** [pd.DataFrame(rec)] for a list of dicts: the columns are the keys of the
    dicts, so an empty list gives a frame without columns. *)
Definition pd_DataFrame {R} (rec : list R) : DataFrame R :=
  match rec with
  | [] => NoColumns
  | _ => Table rec
  end.

(** [df.empty] *)
Definition empty {R} (df : DataFrame R) : bool :=
  match df with
  | NoColumns => true
  | Table [] => true
  | Table _ => false
  end.

(** [df[col]] on a frame: the rows when the column exists. *)
Definition column {R} (col : string) (df : DataFrame R) : result (list R) :=
  match df with
  | NoColumns => Raise (KeyError col)
  | Table rows => Ok rows
  end.

Section Sorting.
Context {A : Type} (leb : A -> A -> bool).

Fixpoint insert_sorted (x : A) (l : list A) : list A :=
  match l with
  | [] => [x]
  | y :: l' => if leb x y then x :: l else y :: insert_sorted x l'
  end.

(** Rows in ascending [leb] order; equal keys keep their input order. *)
Fixpoint sort_rows (l : list A) : list A :=
  match l with
  | [] => []
  | x :: l' => insert_sorted x (sort_rows l')
  end.
End Sorting.

(** [df.sort_values("Date")] *)
Definition sort_values_Date {R} (date : R -> Timestamp) (df : DataFrame R)
  : result (DataFrame R) :=
  rows <- column "Date" df ;;
  Ok (Table (sort_rows (fun a b => date_leb (date a) (date b)) rows)).

Section GroupBy.
Context {K : Type} (cmp : K -> K -> comparison).

(** One row joins the running sum of its group; groups are kept in key
    order. *)
Fixpoint add_to_group (k : K) (c : Q) (groups : list (K * Q))
  : list (K * Q) :=
  match groups with
  | [] => [(k, c)]
  | (k', s) :: rest =>
      match cmp k k' with
      | Lt => (k, c) :: groups
      | Eq => (k', (s + c)%Q) :: rest
      | Gt => (k', s) :: add_to_group k c rest
      end
  end.

(** [df.groupby(key, as_index=False)["Cost"].sum()] on (key, cost) rows. *)
Definition groupby_sum (rows : list (K * Q)) : list (K * Q) :=
  fold_left (fun groups r => add_to_group (fst r) (snd r) groups) rows [].
End GroupBy.

(* ------------------------------------------------------------------ *)
(** ** Record normaliser *)

(** The dict built for one entry of the total series. *)
Definition daily_total_record (e : json) : result (CostRow json) :=
  tp <- getitem e "TimePeriod" ;;
  start <- getitem tp "Start" ;;
  tot <- getitem e "Total" ;;
  uc <- getitem tot "UnblendedCost" ;;
  amount <- getitem uc "Amount" ;;
  cost <- float amount ;;
  Ok (mkCost start cost).

Fixpoint map_result {A B} (f : A -> result B) (xs : list A)
  : result (list B) :=
  match xs with
  | [] => Ok []
  | x :: xs' => y <- f x ;; ys <- map_result f xs' ;; Ok (y :: ys)
  end.

(** [df["Date"] = pd.to_datetime(df["Date"])] on the total-series frame. *)
Definition daily_to_datetime (df : DataFrame (CostRow json))
  : result (DataFrame CostPoint) :=
  rows <- column "Date" df ;;
  rows' <- map_result
             (fun r => d <- to_datetime (Date r) ;; Ok (mkCost d (Cost r)))
             rows ;;
  Ok (Table rows').

Definition df_daily_total (results : list json)
  : result (DataFrame CostPoint) :=
  rec <- map_result daily_total_record results ;;
  let df := pd_DataFrame rec in
  df <- daily_to_datetime df ;;
  sort_values_Date Date df.

(** The dict appended for one group [g] of an entry whose start is [date]. *)
Definition group_record (date : json) (g : json)
  : result (TypeRow json json) :=
  keys <- dict_get_method g "Keys" ;;
  itype <- (if match keys with Some v => truthy v | None => false end
            then ks <- getitem g "Keys" ;; getitem0 ks
            else Ok (JStr "UNKNOWN")) ;;
  m <- getitem g "Metrics" ;;
  uc <- getitem m "UnblendedCost" ;;
  amount <- getitem uc "Amount" ;;
  cost <- float amount ;;
  Ok (mkType date itype cost).

(** The body of the outer loop of [df_by_type]: the records one entry
    contributes. *)
Definition entry_records (e : json) : result (list (TypeRow json json)) :=
  tp <- getitem e "TimePeriod" ;;
  date <- getitem tp "Start" ;;
  groups <- dict_get_method e "Groups" ;;
  gs <- match groups with
        | Some v => iterate v
        | None => Ok []
        end ;;
  map_result (group_record date) gs.

(** Labels are left as they are by the script; a table of
    [CostByTypePoint] has string labels. *)
Definition as_label (v : json) : result string :=
  match v with
  | JStr s => Ok s
  | _ => Unmodelled "instance type that is not a string"
  end.

(** [df["Date"] = pd.to_datetime(df["Date"])] on the grouped-series frame. *)
Definition type_to_datetime (df : DataFrame (TypeRow json json))
  : result (DataFrame CostByTypePoint) :=
  rows <- column "Date" df ;;
  rows' <- map_result
             (fun r => d <- to_datetime (TDate r) ;;
                       l <- as_label (InstanceType r) ;;
                       Ok (mkType d l (TCost r)))
             rows ;;
  Ok (Table rows').

Definition df_by_type (results : list json)
  : result (DataFrame CostByTypePoint) :=
  rec <- for_each entry_records results ;;
  let df := pd_DataFrame rec in
  df <- type_to_datetime df ;;
  sort_values_Date TDate df.

(* ------------------------------------------------------------------ *)
(** ** Aggregator *)

Definition derive_daily_from_type (df_type : DataFrame CostByTypePoint)
  : result (DataFrame CostPoint) :=
  rows <- column "Date" df_type ;;
  let df := Table (map (fun g => mkCost (fst g) (snd g))
                     (groupby_sum date_compare
                        (map (fun r => (TDate r, TCost r)) rows))) in
  sort_values_Date Date df.

(** [series.sum()], [series.mean()], [series.max()], [series.min()] *)
Definition Series_sum (xs : list Q) : Q := fold_left Qplus xs 0%Q.

Definition Series_mean (xs : list Q) : Q :=
  (Series_sum xs / inject_Z (Z.of_nat (List.length xs)))%Q.

Definition Series_max (xs : list Q) : Q :=
  match xs with
  | [] => 0%Q
  | x :: xs' => fold_left (fun m y => if Qle_bool y m then m else y) xs' x
  end.

Definition Series_min (xs : list Q) : Q :=
  match xs with
  | [] => 0%Q
  | x :: xs' => fold_left (fun m y => if Qle_bool m y then m else y) xs' x
  end.

(** Position of the first row that beats every earlier one. *)
Fixpoint idx_scan (beats : Q -> Q -> bool) (best_i : nat) (best : Q)
  (i : nat) (xs : list Q) : nat :=
  match xs with
  | [] => best_i
  | x :: xs' =>
      if beats x best then idx_scan beats i x (S i) xs'
      else idx_scan beats best_i best (S i) xs'
  end.

(** [series.idxmax()], [series.idxmin()]: the first occurrence of the
    extremum.  Row labels are unique, so a label is modelled by the position
    of its row. *)
Definition idxmax (xs : list Q) : nat :=
  match xs with
  | [] => 0
  | x :: xs' => idx_scan (fun a b => negb (Qle_bool a b)) 0 x 1 xs'
  end.

Definition idxmin (xs : list Q) : nat :=
  match xs with
  | [] => 0
  | x :: xs' => idx_scan (fun a b => negb (Qle_bool b a)) 0 x 1 xs'
  end.

Record Summary : Type := mkSummary {
  total_cost : Q;
  average_cost : Q;
  max_cost : Q;
  max_cost_date : option string;
  min_cost : Q;
  min_cost_date : option string
}.

Definition rows_of {R} (df : DataFrame R) : list R :=
  match df with
  | NoColumns => []
  | Table rows => rows
  end.

(** [df.loc[label, "Date"]] *)
Definition loc_Date (rows : list CostPoint) (label : nat) : option Timestamp :=
  option_map Date (nth_error rows label).

Definition analyze (df_daily : DataFrame CostPoint) : Summary :=
  if empty df_daily then
    {| total_cost := 0; average_cost := 0;
       max_cost := 0; max_cost_date := None;
       min_cost := 0; min_cost_date := None |}
  else
    let rows := rows_of df_daily in
    let costs := map Cost rows in
    let total := Series_sum costs in
    let avg := Series_mean costs in
    let mx := Series_max costs in
    let mn := Series_min costs in
    let mx_date := option_map strftime (loc_Date rows (idxmax costs)) in
    let mn_date := option_map strftime (loc_Date rows (idxmin costs)) in
    {| total_cost := total; average_cost := avg;
       max_cost := mx; max_cost_date := mx_date;
       min_cost := mn; min_cost_date := mn_date |}.

(* ------------------------------------------------------------------ *)
(** ** Files *)

(** What a file holds: the array of a JSON file, the data drawn in a chart
    image, or text. *)
Inductive content : Type :=
| JsonFile (entries : list json)
| LinePlot (points : list (Timestamp * Q))
| BarPlot (bars : list (string * Q))
| TextFile (text : string).

Definition filesystem : Type := string -> option content.

Definition no_files : filesystem := fun _ => None.

Definition write_file (path : string) (c : content) (fs : filesystem)
  : filesystem :=
  fun p => if String.eqb p path then Some c else fs p.

(** [os.path.exists] *)
Definition path_exists (fs : filesystem) (path : string) : bool :=
  match fs path with Some _ => true | None => false end.

Fixpoint ends_with_slash (s : string) : bool :=
  match s with
  | EmptyString => false
  | String c EmptyString => Ascii.eqb c "/"%char
  | String _ s' => ends_with_slash s'
  end.

(** [os.path.join(a, b)] for a relative [b]. *)
Definition path_join (a b : string) : string :=
  if String.eqb a "" then b
  else if ends_with_slash a then a ++ b
  else a ++ "/" ++ b.

Definition load_json (path : string) (fs : filesystem)
  : result (list json) :=
  match fs path with
  | None => Raise (FileNotFoundError path)
  | Some (JsonFile entries) => Ok entries
  | Some _ => Unmodelled "a file that does not hold a JSON array"
  end.

(* ------------------------------------------------------------------ *)
(** ** Chart renderer: the data each chart draws *)

Definition plot_daily (df_daily : DataFrame CostPoint) (images_dir : string)
  (fs : filesystem) : result (string * filesystem) :=
  let out := path_join images_dir "cost_over_time.png" in
  rows <- column "Date" df_daily ;;
  let points := map (fun r => (Date r, Cost r)) rows in
  Ok (out, write_file out (LinePlot points) fs).

(** [groupby("InstanceType").sum().sort_values("Cost", ascending=False)] *)
Definition type_totals (rows : list CostByTypePoint) : list (string * Q) :=
  sort_rows (fun a b => Qle_bool (snd b) (snd a))
    (groupby_sum String.compare
       (map (fun r => (InstanceType r, TCost r)) rows)).

Definition plot_by_type (df_type : DataFrame CostByTypePoint)
  (images_dir : string) (fs : filesystem) : result (string * filesystem) :=
  let out := path_join images_dir "cost_per_instance_type.png" in
  rows <- column "InstanceType" df_type ;;
  let totals := type_totals rows in
  Ok (out, write_file out (BarPlot totals) fs).

(* ------------------------------------------------------------------ *)
(** ** Report composer *)

Definition decimal (n : N) : string := NilZero.string_of_uint (N.to_uint n).

Definition pad4 (n : N) : string :=
  let s := decimal n in
  match String.length s with
  | 0 => "0000" | 1 => "000" ++ s | 2 => "00" ++ s | 3 => "0" ++ s | _ => s
  end.

(** [f"{x:.4f}"]: four decimals, ties to even. *)
Definition format_4f (x : Q) : string :=
  let d := Npos (Qden x) in
  let n := (Z.to_N (Z.abs (Qnum x)) * 10000)%N in
  let k := (n / d)%N in
  let r := (n mod d)%N in
  let k := if (d <? 2 * r)%N then (k + 1)%N
           else if (d =? 2 * r)%N && N.odd k then (k + 1)%N
           else k in
  (if (Qnum x <? 0)%Z then "-" else "")
  ++ decimal (k / 10000) ++ "." ++ pad4 (k mod 10000).

(** [f"{d}"] for a date that may be [None]. *)
Definition format_date (d : option string) : string :=
  match d with
  | Some s => s
  | None => "None"
  end.

Fixpoint strip_prefix (p s : string) : option string :=
  match p, s with
  | EmptyString, _ => Some s
  | String a p', String b s' => if Ascii.eqb a b then strip_prefix p' s' else None
  | _, _ => None
  end.

Fixpoint dirname_aux (s : string) : option string :=
  match s with
  | EmptyString => None
  | String c s' =>
      match dirname_aux s' with
      | Some d => Some (String c d)
      | None => if Ascii.eqb c "/"%char then Some EmptyString else None
      end
  end.

(** [os.path.dirname]: what precedes the last slash. *)
Definition dirname (s : string) : string :=
  match dirname_aux s with
  | Some d => d
  | None => ""
  end.

(** [os.path.relpath(path, start)] for a [path] written below [start]; no
    normalisation of either path is modelled. *)
Definition relpath (path start : string) : string :=
  if String.eqb start "" then path
  else match strip_prefix (start ++ "/") path with
       | Some rest => rest
       | None => path
       end.

Definition dq : string := String (ascii_of_nat 34) EmptyString.

(** The document of [write_html]; [now] is the formatted UTC time. *)
Definition html_document (analysis : Summary) (line_rel bar_rel now : string)
  : string :=
  "<!doctype html>
<html>
<head>
  <meta charset=" ++ dq ++ "utf-8" ++ dq ++ "/>
  <title>Informe de Costos EC2</title>
  <style>
    body { font-family: Arial, sans-serif; margin: 40px; }
    table { border-collapse: collapse; }
    th, td { border: 1px solid #ddd; padding: 8px; }
    th { background: #f2f2f2; }
    img { max-width: 100%; height: auto; }
  </style>
</head>
<body>
  <h1>Informe de Análisis de Costos de Instancias EC2</h1>

  <h2>Resumen</h2>
  <table>
    <tr><th>Costo Total (USD)</th><td>" ++ format_4f (total_cost analysis)
  ++ "</td></tr>
    <tr><th>Costo Promedio Diario (USD)</th><td>"
  ++ format_4f (average_cost analysis) ++ "</td></tr>
    <tr><th>Día con Mayor Costo</th><td>"
  ++ format_date (max_cost_date analysis) ++ " ("
  ++ format_4f (max_cost analysis) ++ " USD)</td></tr>
    <tr><th>Día con Menor Costo</th><td>"
  ++ format_date (min_cost_date analysis) ++ " ("
  ++ format_4f (min_cost analysis) ++ " USD)</td></tr>
  </table>

  <h2>Gráfico: Costo Diario</h2>
  <img src=" ++ dq ++ line_rel ++ dq ++ " alt=" ++ dq ++ "Costo diario" ++ dq
  ++ "/>

  <h2>Gráfico: Costo por Tipo de Instancia</h2>
  <img src=" ++ dq ++ bar_rel ++ dq ++ " alt=" ++ dq
  ++ "Costo por tipo de instancia" ++ dq ++ "/>

  <p>Generado el " ++ now ++ " UTC</p>
</body>
</html>
".

(** The two file operations of the [with] block. *)

(** [open(path, "w")]: the file is created, or truncated, at once. *)
Definition open_w (path : string) (fs : filesystem) : filesystem :=
  write_file path (TextFile "") fs.

(** [f.write(data)] on the file opened at [path]. *)
Definition file_write (path data : string) (fs : filesystem) : filesystem :=
  match fs path with
  | Some (TextFile old) => write_file path (TextFile (old ++ data)) fs
  | _ => fs
  end.

(** The states of the file system while [write_html] runs, oldest first:
    on entry, after [open], after [f.write] and the closing of the file. *)
Definition write_html_states (analysis : Summary)
  (line_plot bar_plot report_path now : string) (fs : filesystem)
  : list filesystem :=
  let line_rel := relpath line_plot (dirname report_path) in
  let bar_rel := relpath bar_plot (dirname report_path) in
  let html := html_document analysis line_rel bar_rel now in
  let fs1 := open_w report_path fs in
  let fs2 := file_write report_path html fs1 in
  [fs; fs1; fs2].

Definition write_html (analysis : Summary)
  (line_plot bar_plot report_path now : string) (fs : filesystem)
  : filesystem :=
  last (write_html_states analysis line_plot bar_plot report_path now fs) fs.

(* ------------------------------------------------------------------ *)
(** ** Driver *)

(** [main], with the two command-line options and the clock as arguments;
    the result is the file system once the report is written. *)
Definition main (in_dir out_dir now : string) (fs : filesystem)
  : result filesystem :=
  let images_dir := path_join out_dir "images" in
  let type_path := path_join in_dir "ec2_cost_data_per_instance_type.json" in
  let daily_path := path_join in_dir "ec2_cost_data_daily_total.json" in
  if negb (path_exists fs type_path) then
    Raise (SystemExit ("Falta archivo requerido: " ++ type_path))
  else
    results <- load_json type_path fs ;;
    df_type <- df_by_type results ;;
    df_daily <- (if path_exists fs daily_path
                 then daily <- load_json daily_path fs ;; df_daily_total daily
                 else derive_daily_from_type df_type) ;;
    let analysis := analyze df_daily in
    p1 <- plot_daily df_daily images_dir fs ;;
    p2 <- plot_by_type df_type images_dir (snd p1) ;;
    let report_path := path_join out_dir "ec2_cost_report.html" in
    Ok (write_html analysis (fst p1) (fst p2) report_path now (snd p2)).

(* ------------------------------------------------------------------ *)
(** ** Name tags, in the report scripts *)

(** [x == key] for a string [key]. *)
Definition equals_str (x : json) (key : string) : bool :=
  match x with
  | JStr s => String.eqb s key
  | _ => false
  end.

(** [d.get(k)] as a value: [None] is [JNull]. *)
Definition get_or_None (v : json) (k : string) : result json :=
  r <- dict_get_method v k ;;
  Ok (match r with Some x => x | None => JNull end).

(** The loop of [tag_value]. *)
Fixpoint tag_scan (key : string) (tags : list json) : result json :=
  match tags with
  | [] => Ok JNull
  | t :: rest =>
      k <- get_or_None t "Key" ;;
      if equals_str k key then get_or_None t "Value"
      else tag_scan key rest
  end.

(** [tag_value] of [aws_resources_report_v2.py] and
    [aws_network_report_full_v2.py]. *)
Definition tag_value (tags : json) (key : string) : result json :=
  if negb (truthy tags) then Ok JNull
  else ts <- iterate tags ;; tag_scan key ts.

(* ------------------------------------------------------------------ *)
(** ** Vocabulary of the statements *)

(** [f] goes through on [x]. *)
Definition yields {A B} (f : A -> result B) (x : A) : Prop :=
  exists y, f x = Ok y.

(** [a] is not later than [b]. *)
Definition date_le (a b : Timestamp) : Prop := date_leb a b = true.

(** Ascending by date, every row against every later row. *)
Definition ascending_by {R} (date : R -> Timestamp) (rows : list R) : Prop :=
  StronglySorted (fun a b => date_le (date a) (date b)) rows.

(** The order a boolean comparison decides. *)
Definition holds {A} (leb : A -> A -> bool) (a b : A) : Prop := leb a b = true.

(** The arithmetic sum of a list of amounts. *)
Fixpoint sumQ (xs : list Q) : Q :=
  match xs with
  | [] => 0%Q
  | x :: xs' => (x + sumQ xs')%Q
  end.

(** Rows of a (key, cost) table that carry the key [k], and their total. *)
Definition same_key {K} (cmp : K -> K -> comparison) (k : K) (r : K * Q)
  : bool :=
  match cmp (fst r) k with Eq => true | _ => false end.

Definition total_of {K} (cmp : K -> K -> comparison) (k : K)
  (rows : list (K * Q)) : Q :=
  sumQ (map snd (filter (same_key cmp k) rows)).

(** Keys strictly increasing from one row to the next. *)
Definition key_lt {K} (cmp : K -> K -> comparison) (a b : K * Q) : Prop :=
  cmp (fst a) (fst b) = Lt.

(** Total cost of the rows of one instance type, over all dates. *)
Definition cost_of_type (t : string) (rows : list CostByTypePoint) : Q :=
  sumQ (map TCost (filter (fun r => String.eqb (InstanceType r) t) rows)).

(** Bars from the tallest to the shortest. *)
Definition descending_by_cost (bars : list (string * Q)) : Prop :=
  StronglySorted (fun a b => (snd b <= snd a)%Q) bars.

(** The summary of a frame without rows. *)
Definition zero_summary : Summary :=
  {| total_cost := 0; average_cost := 0;
     max_cost := 0; max_cost_date := None;
     min_cost := 0; min_cost_date := None |}.

(** The [CostPoint] of a well-formed entry of the total series: its start
    read as a date, its amount read as a number. *)
Definition daily_point (e : json) : result CostPoint :=
  r <- daily_total_record e ;;
  d <- to_datetime (Date r) ;;
  Ok (mkCost d (Cost r)).

(** Whether following the keys of [path] from [v] reaches a value. *)
Fixpoint has_path (path : list string) (v : json) : bool :=
  match path with
  | [] => true
  | k :: path' =>
      match v with
      | JObj fields =>
          match dict_get k fields with
          | Some x => has_path path' x
          | None => false
          end
      | _ => false
      end
  end.

Definition lacks (path : list string) (v : json) : Prop :=
  has_path path v = false.

Definition start_path : list string := ["TimePeriod"; "Start"].
Definition total_amount_path : list string :=
  ["Total"; "UnblendedCost"; "Amount"].
Definition group_amount_path : list string :=
  ["Metrics"; "UnblendedCost"; "Amount"].

(** The groups the inner loop of [df_by_type] visits for an entry. *)
Definition groups_of (e : json) : list json :=
  match e with
  | JObj fields =>
      match dict_get "Groups" fields with
      | Some v => match iterate v with Ok gs => gs | _ => [] end
      | None => []
      end
  | _ => []
  end.

(** An entry of the total series without its start or its amount. *)
Definition malformed_daily (e : json) : Prop :=
  lacks start_path e \/ lacks total_amount_path e.

(** An entry of the grouped series without its start, or with a group
    without its amount. *)
Definition malformed_grouped (e : json) : Prop :=
  lacks start_path e \/
  exists g, In g (groups_of e) /\ lacks group_amount_path g.

(** [v[k1][k2]...] along a path of keys. *)
Fixpoint get_path (path : list string) (v : json) : result json :=
  match path with
  | [] => Ok v
  | k :: path' => x <- getitem v k ;; get_path path' x
  end.

(** The paths [main] reads and writes. *)
Definition type_path (in_dir : string) : string :=
  path_join in_dir "ec2_cost_data_per_instance_type.json".
Definition daily_path (in_dir : string) : string :=
  path_join in_dir "ec2_cost_data_daily_total.json".
Definition line_path (out_dir : string) : string :=
  path_join (path_join out_dir "images") "cost_over_time.png".
Definition bar_path (out_dir : string) : string :=
  path_join (path_join out_dir "images") "cost_per_instance_type.png".
Definition report_path (out_dir : string) : string :=
  path_join out_dir "ec2_cost_report.html".

(** The text [main] writes for a summary. *)
Definition report_text (out_dir now : string) (analysis : Summary) : string :=
  html_document analysis
    (relpath (line_path out_dir) (dirname (report_path out_dir)))
    (relpath (bar_path out_dir) (dirname (report_path out_dir)))
    now.

(** Where the daily frame of a run comes from: the total-series file when
    there is one, the grouped series otherwise. *)
Definition daily_source (in_dir : string) (fs : filesystem)
  (df_daily : DataFrame CostPoint) : Prop :=
  match fs (daily_path in_dir) with
  | Some c =>
      exists daily, c = JsonFile daily /\ df_daily_total daily = Ok df_daily
  | None =>
      exists results df_type,
        fs (type_path in_dir) = Some (JsonFile results) /\
        df_by_type results = Ok df_type /\
        derive_daily_from_type df_type = Ok df_daily
  end.

(** The points of the line chart of a daily frame. *)
Definition line_points (df_daily : DataFrame CostPoint)
  : list (Timestamp * Q) :=
  map (fun r => (Date r, Cost r)) (rows_of df_daily).

(** The report file is missing, or holds the whole document. *)
Definition absent_or_complete (path doc : string) (fs : filesystem) : Prop :=
  fs path = None \/ fs path = Some (TextFile doc).

(* ------------------------------------------------------------------ *)
(** ** Sample inputs *)

(** Cost Explorer shapes. *)
Definition amount_json (a : string) : json :=
  JObj [("UnblendedCost", JObj [("Amount", JStr a)])].

Definition group_json (itype a : string) : json :=
  JObj [("Keys", JArr [JStr itype]); ("Metrics", amount_json a)].

Definition grouped_entry (start : string) (groups : list json) : json :=
  JObj [("TimePeriod", JObj [("Start", JStr start)]); ("Groups", JArr groups)].

Definition total_entry (start a : string) : json :=
  JObj [("TimePeriod", JObj [("Start", JStr start)]); ("Total", amount_json a)].

(** Two days, two instance types. *)
Definition sample_grouped : list json :=
  [grouped_entry "2024-01-01"
     [group_json "t2.micro" "1.0"; group_json "m5.large" "2.5"];
   grouped_entry "2024-01-02" [group_json "t2.micro" "1.2"]].

Definition sample_total : list json :=
  [total_entry "2024-01-02" "1.2"; total_entry "2024-01-01" "3.5"].

Definition sample_by_type : list CostByTypePoint :=
  [mkType (mkDate 2024 1 1) "t2.micro" 1.0%Q;
   mkType (mkDate 2024 1 1) "m5.large" 2.5%Q;
   mkType (mkDate 2024 1 2) "t2.micro" 1.2%Q].

Definition sample_daily : list CostPoint :=
  [mkCost (mkDate 2024 1 1) 3.5%Q; mkCost (mkDate 2024 1 2) 1.2%Q].

(** An entry of the total series without its amount, one of the grouped
    series without its groups. *)
Definition entry_without_amount : json :=
  JObj [("TimePeriod", JObj [("Start", JStr "2024-01-03")])].

(** An entry of the grouped series whose second group has no [Metrics]. *)
Definition entry_with_bad_group : json :=
  grouped_entry "2024-01-03"
    [group_json "t2.micro" "0.7"; JObj [("Keys", JArr [JStr "m5.large"])]].

Definition fields_without_groups : list (string * json) :=
  [("TimePeriod", JObj [("Start", JStr "2024-01-03")])].

Definition sample_now : string := "2024-02-01 00:00:00".

(** Input directories: both files, and the grouped file holding [[]]. *)
Definition sample_files : filesystem :=
  write_file (daily_path ".") (JsonFile sample_total)
    (write_file (type_path ".") (JsonFile sample_grouped) no_files).

Definition empty_series_files : filesystem :=
  write_file (type_path ".") (JsonFile []) no_files.

Definition sample_run : filesystem :=
  match main "." "output" sample_now sample_files with
  | Ok fs => fs
  | _ => no_files
  end.

(* ------------------------------------------------------------------ *)
(** ** Vocabulary of the further statements *)

(** The running extremum of a scan that replaces its value by every item
    that beats it. *)
Definition scan_best (beats : Q -> Q -> bool) (best : Q) (xs : list Q) : Q :=
  fold_left (fun m y => if beats y m then y else m) xs best.

(** Rows of one date, and their total. *)
Definition same_date (d : Timestamp) (r : CostByTypePoint) : bool :=
  match date_compare (TDate r) d with Eq => true | _ => false end.

Definition cost_of_date (d : Timestamp) (rows : list CostByTypePoint) : Q :=
  sumQ (map TCost (filter (same_date d) rows)).

(** The typed row of a collected record of the grouped series, and the
    typed rows of an entry. *)
Definition type_point (r : TypeRow json json) : result CostByTypePoint :=
  d <- to_datetime (TDate r) ;;
  l <- as_label (InstanceType r) ;;
  Ok (mkType d l (TCost r)).

Definition entry_points (e : json) : result (list CostByTypePoint) :=
  recs <- entry_records e ;;
  map_result type_point recs.

(** Exceptions raised by subscripts and method calls on the input data. *)
Definition data_error (e : exn) : Prop :=
  match e with
  | KeyError _ | TypeError _ | AttributeError _ | IndexError _ => True
  | FileNotFoundError _ | SystemExit _ => False
  end.

(** A tag that is a dict, whether a tag carries the key [key], and the
    value of a tag. *)
Definition is_dict (t : json) : Prop := exists fields, t = JObj fields.

Definition tag_has_key (key : string) (t : json) : bool :=
  match t with
  | JObj fields =>
      match dict_get "Key" fields with
      | Some k => equals_str k key
      | None => false
      end
  | _ => false
  end.

Definition value_of_tag (t : json) : json :=
  match t with
  | JObj fields =>
      match dict_get "Value" fields with
      | Some v => v
      | None => JNull
      end
  | _ => JNull
  end.

(** Every exception [c] can end with satisfies [P]. *)
Definition raises_only {A} (P : exn -> Prop) (c : result A) : Prop :=
  forall e, c = Raise e -> P e.


(** The files [main] writes. *)
Definition output_paths (out_dir : string) : list string :=
  [line_path out_dir; bar_path out_dir; report_path out_dir].

(** The state of the files after a run that read [df_type] and
    [df_daily]. *)
Definition run_result (out_dir now : string) (fs : filesystem)
  (df_type : DataFrame CostByTypePoint) (df_daily : DataFrame CostPoint)
  : filesystem :=
  write_html (analyze df_daily) (line_path out_dir) (bar_path out_dir)
    (report_path out_dir) now
    (write_file (bar_path out_dir) (BarPlot (type_totals (rows_of df_type)))
       (write_file (line_path out_dir) (LinePlot (line_points df_daily)) fs)).

(** The last character of a string. *)
Fixpoint last_char (s : string) : option ascii :=
  match s with
  | EmptyString => None
  | String c EmptyString => Some c
  | String _ s' => last_char s'
  end.

(** Further sample inputs: the daily frame derived from the sample table,
    the points of the sample total series in input order, tags. *)
Definition sample_derived : DataFrame CostPoint :=
  match derive_daily_from_type (Table sample_by_type) with
  | Ok df => df
  | _ => NoColumns
  end.

Definition sample_total_points : list CostPoint :=
  [mkCost (mkDate 2024 1 2) 1.2%Q; mkCost (mkDate 2024 1 1) 3.5%Q].

Definition sample_tag (k v : string) : json :=
  JObj [("Key", JStr k); ("Value", JStr v)].

Definition sample_tags : list json :=
  [sample_tag "env" "prod"; sample_tag "Name" "web-1";
   sample_tag "Name" "web-2"].

(* ------------------------------------------------------------------ *)
(** ** The aggregation over any addition, and in binary64 *)

Section Arithmetic.
Context {N : Type} (add : N -> N -> N).

(** [add_to_group], [groupby_sum] and [derive_daily_from_type] on (date,
    cost) rows, and the sum of a column, with the addition [add]. *)
Fixpoint add_to_group_with {K} (cmp : K -> K -> comparison) (k : K) (c : N)
  (groups : list (K * N)) : list (K * N) :=
  match groups with
  | [] => [(k, c)]
  | (k', s) :: rest =>
      match cmp k k' with
      | Lt => (k, c) :: groups
      | Eq => (k', add s c) :: rest
      | Gt => (k', s) :: add_to_group_with cmp k c rest
      end
  end.

Definition groupby_sum_with {K} (cmp : K -> K -> comparison)
  (rows : list (K * N)) : list (K * N) :=
  fold_left (fun groups r => add_to_group_with cmp (fst r) (snd r) groups)
    rows [].

Definition derive_daily_with (rows : list (Timestamp * N))
  : list (Timestamp * N) :=
  sort_rows (fun a b => date_leb (fst a) (fst b))
    (groupby_sum_with date_compare rows).

Definition sum_with (zero : N) (xs : list N) : N := fold_left add xs zero.
End Arithmetic.

(** Python floats: binary64 with round to nearest even. *)
Definition binary64 : Type := PrimFloat.float.

Definition derive_daily_binary64 (rows : list (Timestamp * binary64))
  : list (Timestamp * binary64) :=
  derive_daily_with PrimFloat.add rows.

Definition sum_binary64 (xs : list binary64) : binary64 :=
  sum_with PrimFloat.add 0%float xs.

(** A count as a float; counts below 2^53 are exact. *)
Fixpoint count_binary64 (n : nat) : binary64 :=
  match n with
  | O => 0%float
  | S n' => PrimFloat.add (count_binary64 n') 1%float
  end.

(** [series.mean()] in binary64: the sum over the count. *)
Definition mean_binary64 (xs : list binary64) : binary64 :=
  PrimFloat.div (sum_binary64 xs) (count_binary64 (List.length xs)).

(** Two days of two costs each, and three equal costs. *)
Definition binary64_rows : list (Timestamp * binary64) :=
  [(mkDate 2024 1 1, 0.1%float); (mkDate 2024 1 1, 0.1%float);
   (mkDate 2024 1 2, 0.3%float); (mkDate 2024 1 2, 0.4%float)].

Definition binary64_tenths : list binary64 :=
  [0.1%float; 0.1%float; 0.1%float].

(* ------------------------------------------------------------------ *)
(** ** Vocabulary of the revised statements *)

(** A grouped entry without its start, without any [Groups] key, or with a
    group without its amount. *)
Definition missing_required_grouped (e : json) : Prop :=
  malformed_grouped e \/ lacks ["Groups"] e.

(** The period start of an entry is written [YYYY-MM-DD]. *)
Definition iso_start (e : json) : Prop :=
  exists s d,
    get_path start_path e = Ok (JStr s) /\ parse_iso_date s = Some d.

(** [sub] occurs in [s]. *)
Definition contains (sub s : string) : Prop :=
  exists a b, s = a ++ sub ++ b.

(** The opening of an image tag that refers to [ref]. *)
Definition img_src (ref : string) : string :=
  "<img src=" ++ dq ++ ref ++ dq.

(* ================================================================== *)
(** * Properties *)

(** ** The result monad *)

Lemma bind_Ok_inv {A B} (c : result A) (k : A -> result B) (b : B) :
  bind c k = Ok b -> exists a, c = Ok a /\ k a = Ok b.
Proof.
  destruct c as [a | e | w]; simpl; intros H; try discriminate.
  exists a; split; [reflexivity | exact H].
Qed.

Lemma bind_Raise {A B} (c : result A) (k : A -> result B) (e : exn) :
  c = Raise e -> bind c k = Raise e.
Proof. intros ->; reflexivity. Qed.

Lemma bind_not_Ok {A B} (c : result A) (k : A -> result B) :
  (forall a, c <> Ok a) -> forall b, bind c k <> Ok b.
Proof.
  intros Hc b Hb. apply bind_Ok_inv in Hb as (a & Ha & _).
  exact (Hc a Ha).
Qed.

(** Repeatedly open a successful chain of binds in hypothesis [H]. *)
Ltac open_bind H :=
  let a := fresh "v" in
  let Ha := fresh "Hv" in
  apply bind_Ok_inv in H as (a & Ha & H).

Lemma map_result_length {A B} (f : A -> result B) xs ys :
  map_result f xs = Ok ys -> List.length ys = List.length xs.
Proof.
  revert ys; induction xs as [| x xs IH]; simpl; intros ys H.
  - injection H as <-; reflexivity.
  - open_bind H. open_bind H. injection H as <-.
    simpl; f_equal; apply IH; assumption.
Qed.

Lemma map_result_Forall2 {A B} (f : A -> result B) xs ys :
  map_result f xs = Ok ys <-> Forall2 (fun x y => f x = Ok y) xs ys.
Proof.
  split.
  - revert ys; induction xs as [| x xs IH]; simpl; intros ys H.
    + injection H as <-; constructor.
    + open_bind H. open_bind H. injection H as <-.
      constructor; [assumption | apply IH; assumption].
  - induction 1 as [| x y xs ys Hxy _ IH]; simpl.
    + reflexivity.
    + rewrite Hxy; simpl. rewrite IH; reflexivity.
Qed.

(** A loop stops with the exception of the first item that raises, when
    the items before it go through. *)
Lemma map_result_first_raise {A B} (f : A -> result B) pre x post e :
  Forall (yields f) pre -> f x = Raise e ->
  map_result f (pre ++ x :: post)%list = Raise e.
Proof.
  intros Hpre Hx; induction Hpre as [| p pre [y Hy] _ IH]; simpl.
  - rewrite Hx; reflexivity.
  - rewrite Hy; simpl. rewrite IH; reflexivity.
Qed.

Lemma for_each_first_raise {A B} (f : A -> result (list B)) pre x post e :
  Forall (yields f) pre -> f x = Raise e ->
  for_each f (pre ++ x :: post)%list = Raise e.
Proof.
  intros Hpre Hx; induction Hpre as [| p pre [y Hy] _ IH]; simpl.
  - rewrite Hx; reflexivity.
  - rewrite Hy; simpl. rewrite IH; reflexivity.
Qed.

(** A loop over a list with an item that does not go through never
    completes. *)
Lemma map_result_not_Ok {A B} (f : A -> result B) xs x :
  In x xs -> (forall y, f x <> Ok y) -> forall ys, map_result f xs <> Ok ys.
Proof.
  induction xs as [| a xs IH]; simpl; intros Hin Hx ys H; [contradiction |].
  open_bind H. open_bind H.
  destruct Hin as [-> | Hin].
  - exact (Hx _ Hv).
  - exact (IH Hin Hx _ Hv0).
Qed.

Lemma for_each_not_Ok {A B} (f : A -> result (list B)) xs x :
  In x xs -> (forall y, f x <> Ok y) -> forall ys, for_each f xs <> Ok ys.
Proof.
  induction xs as [| a xs IH]; simpl; intros Hin Hx ys H; [contradiction |].
  open_bind H. open_bind H.
  destruct Hin as [-> | Hin].
  - exact (Hx _ Hv).
  - exact (IH Hin Hx _ Hv0).
Qed.

(** An item that contributes no record can be removed from the loop. *)
Lemma for_each_skip {A B} (f : A -> result (list B)) pre x post :
  f x = Ok [] ->
  for_each f (pre ++ x :: post)%list = for_each f (pre ++ post)%list.
Proof.
  intros Hx; induction pre as [| p pre IH]; simpl.
  - rewrite Hx; simpl. destruct (for_each f post); reflexivity.
  - rewrite IH; reflexivity.
Qed.

(* ------------------------------------------------------------------ *)
(** ** Sorting *)

Section SortingFacts.
Context {A : Type} (leb : A -> A -> bool).

Local Abbreviation le := (holds leb).

Lemma insert_sorted_perm x l : Permutation (x :: l) (insert_sorted leb x l).
Proof.
  induction l as [| y l IH]; simpl.
  - apply Permutation_refl.
  - destruct (leb x y).
    + apply Permutation_refl.
    + eapply perm_trans; [apply perm_swap |].
      apply perm_skip; exact IH.
Qed.

Lemma sort_rows_perm l : Permutation l (sort_rows leb l).
Proof.
  induction l as [| x l IH]; simpl.
  - constructor.
  - eapply perm_trans; [apply perm_skip; exact IH |].
    apply insert_sorted_perm.
Qed.

Lemma sort_rows_length l : List.length (sort_rows leb l) = List.length l.
Proof. symmetry; apply Permutation_length, sort_rows_perm. Qed.

(** A frame already in order is left as it is. *)
Lemma sort_rows_sorted_id l : Sorted le l -> sort_rows leb l = l.
Proof.
  induction 1 as [| x l Hs IH Hhd]; simpl; [reflexivity |].
  rewrite IH. destruct Hhd as [| y l Hxy]; simpl; [reflexivity |].
  unfold le in Hxy; rewrite Hxy; reflexivity.
Qed.

Hypothesis leb_total : forall a b, leb a b = true \/ leb b a = true.

Lemma insert_sorted_Sorted x l :
  Sorted le l -> Sorted le (insert_sorted leb x l).
Proof.
  induction 1 as [| y l Hs IH Hhd]; simpl.
  - repeat constructor.
  - destruct (leb x y) eqn:Hxy.
    + constructor; [constructor; assumption | constructor; exact Hxy].
    + constructor; [exact IH |].
      assert (Hyx : le y x)
        by (destruct (leb_total x y) as [H | H]; [congruence | exact H]).
      destruct Hhd as [| z l Hyz]; simpl.
      * constructor; exact Hyx.
      * destruct (leb x z); constructor; assumption.
Qed.

Lemma sort_rows_Sorted l : Sorted le (sort_rows leb l).
Proof.
  induction l as [| x l IH]; simpl.
  - constructor.
  - apply insert_sorted_Sorted; exact IH.
Qed.
End SortingFacts.

Lemma Sorted_weaken {A} (R R' : A -> A -> Prop) (l : list A) :
  (forall a b, R a b -> R' a b) -> Sorted R l -> Sorted R' l.
Proof.
  intros HR; induction 1 as [| x l Hs IH Hhd]; constructor; [exact IH |].
  destruct Hhd; constructor; auto.
Qed.

(* ------------------------------------------------------------------ *)
(** ** The order on dates *)

Lemma date_compare_eq a b : date_compare a b = Eq <-> a = b.
Proof.
  destruct a as [y m d], b as [y' m' d']; unfold date_compare; simpl.
  split.
  - destruct (Nat.compare_spec y y'); try discriminate.
    destruct (Nat.compare_spec m m'); try discriminate.
    destruct (Nat.compare_spec d d'); try discriminate.
    intros _; congruence.
  - intros H; injection H as -> -> ->.
    rewrite !Nat.compare_refl; reflexivity.
Qed.

Lemma date_compare_antisym a b :
  date_compare b a = CompOpp (date_compare a b).
Proof.
  destruct a as [y m d], b as [y' m' d']; unfold date_compare; simpl.
  rewrite (Nat.compare_antisym y y'), (Nat.compare_antisym m m'),
    (Nat.compare_antisym d d').
  destruct (y ?= y')%nat; simpl; try reflexivity.
  destruct (m ?= m')%nat; simpl; reflexivity.
Qed.

Lemma date_compare_lt_trans a b c :
  date_compare a b = Lt -> date_compare b c = Lt -> date_compare a c = Lt.
Proof.
  destruct a as [y m d], b as [y' m' d'], c as [y'' m'' d''].
  unfold date_compare; simpl.
  destruct (Nat.compare_spec y y'); try discriminate;
    destruct (Nat.compare_spec y' y''); try discriminate;
    destruct (Nat.compare_spec y y''); try lia; try reflexivity;
    destruct (Nat.compare_spec m m'); try discriminate;
    destruct (Nat.compare_spec m' m''); try discriminate;
    destruct (Nat.compare_spec m m''); try lia; try reflexivity;
    destruct (Nat.compare_spec d d'); try discriminate;
    destruct (Nat.compare_spec d' d''); try discriminate;
    destruct (Nat.compare_spec d d''); try lia; reflexivity.
Qed.

Lemma date_leb_total a b : date_leb a b = true \/ date_leb b a = true.
Proof.
  unfold date_leb. rewrite (date_compare_antisym a b).
  destruct (date_compare a b); simpl; auto.
Qed.

Lemma date_le_trans a b c : date_le a b -> date_le b c -> date_le a c.
Proof.
  unfold date_le, date_leb.
  destruct (date_compare a b) eqn:Hab; try discriminate;
    destruct (date_compare b c) eqn:Hbc; try discriminate; intros _ _.
  - apply date_compare_eq in Hab, Hbc; subst.
    rewrite (proj2 (date_compare_eq c c) eq_refl); reflexivity.
  - apply date_compare_eq in Hab; subst. rewrite Hbc; reflexivity.
  - apply date_compare_eq in Hbc; subst. rewrite Hab; reflexivity.
  - rewrite (date_compare_lt_trans _ _ _ Hab Hbc); reflexivity.
Qed.

Lemma sort_by_date_ascending {R} (date : R -> Timestamp) (rows : list R) :
  ascending_by date (sort_rows (fun a b => date_leb (date a) (date b)) rows).
Proof.
  apply Sorted_StronglySorted.
  - intros a b c; apply date_le_trans.
  - apply (sort_rows_Sorted (fun a b => date_leb (date a) (date b))).
    intros a b; apply date_leb_total.
Qed.

(* ------------------------------------------------------------------ *)
(** ** Sums of costs *)

Lemma fold_left_Qplus xs acc : (fold_left Qplus xs acc == acc + sumQ xs)%Q.
Proof.
  revert acc; induction xs as [| x xs IH]; simpl; intros acc.
  - ring.
  - rewrite IH; ring.
Qed.

Lemma Series_sum_sumQ xs : (Series_sum xs == sumQ xs)%Q.
Proof. unfold Series_sum; rewrite fold_left_Qplus; ring. Qed.

Lemma sumQ_app xs ys : (sumQ (xs ++ ys)%list == sumQ xs + sumQ ys)%Q.
Proof.
  induction xs as [| x xs IH]; simpl.
  - ring.
  - rewrite IH; ring.
Qed.

Lemma sumQ_perm xs ys : Permutation xs ys -> (sumQ xs == sumQ ys)%Q.
Proof.
  induction 1 as [| x xs ys _ IH | x y xs | xs ys zs _ IH1 _ IH2]; simpl.
  - reflexivity.
  - rewrite IH; reflexivity.
  - ring.
  - rewrite IH1; exact IH2.
Qed.

(* ------------------------------------------------------------------ *)
(** ** Group-by sums *)

Section GroupByFacts.
Context {K : Type} (cmp : K -> K -> comparison).

Lemma add_to_group_sum k c groups :
  (sumQ (map snd (add_to_group cmp k c groups))
   == sumQ (map snd groups) + c)%Q.
Proof.
  induction groups as [| [k' s] rest IH]; simpl.
  - ring.
  - destruct (cmp k k'); simpl; try ring.
    rewrite IH; ring.
Qed.

Lemma fold_add_sum rows acc :
  (sumQ (map snd
     (fold_left (fun g r => add_to_group cmp (fst r) (snd r) g) rows acc))
   == sumQ (map snd acc) + sumQ (map snd rows))%Q.
Proof.
  revert acc; induction rows as [| r rows IH]; simpl; intros acc.
  - ring.
  - rewrite IH, add_to_group_sum; ring.
Qed.

(** Grouping keeps the grand total. *)
Lemma groupby_sum_total rows :
  (sumQ (map snd (groupby_sum cmp rows)) == sumQ (map snd rows))%Q.
Proof. unfold groupby_sum; rewrite fold_add_sum; simpl; ring. Qed.

Hypothesis cmp_eq : forall a b, cmp a b = Eq <-> a = b.

Lemma add_to_group_keys k c groups k0 :
  In k0 (map fst (add_to_group cmp k c groups))
  <-> k0 = k \/ In k0 (map fst groups).
Proof.
  induction groups as [| [k' s] rest IH]; simpl.
  - intuition.
  - destruct (cmp k k') eqn:Hc; simpl.
    + apply cmp_eq in Hc; subst; intuition.
    + intuition.
    + rewrite IH; intuition.
Qed.

Lemma fold_add_keys rows acc k0 :
  In k0 (map fst
    (fold_left (fun g r => add_to_group cmp (fst r) (snd r) g) rows acc))
  <-> In k0 (map fst acc) \/ In k0 (map fst rows).
Proof.
  revert acc; induction rows as [| r rows IH]; simpl; intros acc.
  - intuition.
  - rewrite IH, add_to_group_keys; intuition.
Qed.

(** The groups are the keys of the rows. *)
Lemma groupby_sum_keys rows k0 :
  In k0 (map fst (groupby_sum cmp rows)) <-> In k0 (map fst rows).
Proof. unfold groupby_sum; rewrite fold_add_keys; simpl; intuition. Qed.

Lemma same_key_refl k c : same_key cmp k (k, c) = true.
Proof.
  unfold same_key; simpl.
  rewrite (proj2 (cmp_eq k k) eq_refl); reflexivity.
Qed.

Lemma same_key_true k r : same_key cmp k r = true <-> fst r = k.
Proof.
  unfold same_key. rewrite <- cmp_eq.
  destruct (cmp (fst r) k); split; congruence.
Qed.

Lemma total_of_cons q r rows :
  (total_of cmp q (r :: rows)
   == (if same_key cmp q r then snd r else 0) + total_of cmp q rows)%Q.
Proof.
  unfold total_of; simpl.
  destruct (same_key cmp q r); simpl; ring.
Qed.

Lemma total_of_add q k c groups :
  (total_of cmp q (add_to_group cmp k c groups)
   == total_of cmp q groups + (if same_key cmp q (k, c) then c else 0))%Q.
Proof.
  induction groups as [| [k' s] rest IH]; simpl.
  - rewrite total_of_cons; simpl; unfold total_of; simpl; ring.
  - destruct (cmp k k') eqn:Hc.
    + apply cmp_eq in Hc; subst k'.
      rewrite !total_of_cons; unfold same_key; simpl.
      destruct (cmp k q); ring.
    + rewrite !total_of_cons; simpl.
      destruct (same_key cmp q (k, c)); ring.
    + rewrite (total_of_cons q (k', s)), IH, total_of_cons; ring.
Qed.

Lemma fold_add_total q rows acc :
  (total_of cmp q
     (fold_left (fun g r => add_to_group cmp (fst r) (snd r) g) rows acc)
   == total_of cmp q acc + total_of cmp q rows)%Q.
Proof.
  revert acc; induction rows as [| [k c] rows IH]; simpl; intros acc.
  - unfold total_of at 3; simpl; ring.
  - rewrite IH, total_of_add, (total_of_cons q (k, c)); simpl; ring.
Qed.

(** The sum kept for a key is the sum of the rows with that key. *)
Lemma groupby_sum_total_of q rows :
  (total_of cmp q (groupby_sum cmp rows) == total_of cmp q rows)%Q.
Proof.
  unfold groupby_sum; rewrite fold_add_total.
  unfold total_of at 1; simpl; ring.
Qed.

Lemma total_of_absent q rows :
  ~ In q (map fst rows) -> (total_of cmp q rows == 0)%Q.
Proof.
  induction rows as [| r rows IH]; simpl; intros Hq.
  - reflexivity.
  - rewrite total_of_cons, IH by tauto.
    destruct (same_key cmp q r) eqn:Hs; [| ring].
    apply same_key_true in Hs; tauto.
Qed.

Lemma total_of_unique k h groups :
  NoDup (map fst groups) -> In (k, h) groups ->
  (total_of cmp k groups == h)%Q.
Proof.
  induction groups as [| [k0 h0] rest IH]; simpl; intros Hnd Hin.
  - contradiction.
  - inversion Hnd as [| ? ? Hnotin Hnd']; subst.
    rewrite total_of_cons. destruct Hin as [Heq | Hin].
    + injection Heq as -> ->.
      rewrite same_key_refl, total_of_absent by assumption.
      simpl; ring.
    + assert (Hk : In k (map fst rest)) by (apply (in_map fst) in Hin; exact Hin).
      destruct (same_key cmp k (k0, h0)) eqn:Hs.
      * apply same_key_true in Hs; simpl in Hs; subst; contradiction.
      * rewrite IH by assumption; ring.
Qed.

Hypothesis cmp_antisym : forall a b, cmp b a = CompOpp (cmp a b).

Lemma add_to_group_HdRel a k c groups :
  key_lt cmp a (k, c) -> HdRel (key_lt cmp) a groups ->
  HdRel (key_lt cmp) a (add_to_group cmp k c groups).
Proof.
  intros Hak Hhd; destruct groups as [| [k' s] rest]; simpl.
  - constructor; exact Hak.
  - inversion Hhd as [| ? ? Hlt]; subst.
    destruct (cmp k k'); constructor; assumption.
Qed.

Lemma add_to_group_Sorted k c groups :
  Sorted (key_lt cmp) groups ->
  Sorted (key_lt cmp) (add_to_group cmp k c groups).
Proof.
  induction 1 as [| [k' s] rest Hs IH Hhd]; simpl.
  - repeat constructor.
  - destruct (cmp k k') eqn:Hc.
    + constructor; [exact Hs |].
      destruct Hhd; constructor; assumption.
    + constructor; [constructor; assumption | constructor; exact Hc].
    + constructor; [exact IH |].
      apply add_to_group_HdRel; [| exact Hhd].
      unfold key_lt; simpl. rewrite cmp_antisym, Hc; reflexivity.
Qed.

Lemma groupby_sum_Sorted rows : Sorted (key_lt cmp) (groupby_sum cmp rows).
Proof.
  unfold groupby_sum.
  assert (H : Sorted (key_lt cmp) (@nil (K * Q))) by constructor.
  revert H; generalize (@nil (K * Q)).
  induction rows as [| r rows IH]; simpl; intros acc Hacc.
  - exact Hacc.
  - apply IH, add_to_group_Sorted, Hacc.
Qed.

Hypothesis cmp_trans :
  forall a b c, cmp a b = Lt -> cmp b c = Lt -> cmp a c = Lt.

Lemma groupby_sum_StronglySorted rows :
  StronglySorted (key_lt cmp) (groupby_sum cmp rows).
Proof.
  apply Sorted_StronglySorted; [| apply groupby_sum_Sorted].
  intros a b c; unfold key_lt; apply cmp_trans.
Qed.

Lemma key_lt_NoDup groups :
  StronglySorted (key_lt cmp) groups -> NoDup (map fst groups).
Proof.
  induction 1 as [| a rest Hs IH Hall]; simpl; constructor; [| exact IH].
  intros Hin. apply in_map_iff in Hin as (b & Hb & Hin).
  rewrite Forall_forall in Hall. specialize (Hall b Hin).
  unfold key_lt in Hall. rewrite Hb in Hall.
  rewrite (proj2 (cmp_eq (fst a) (fst a)) eq_refl) in Hall; discriminate.
Qed.

(** One group per distinct key. *)
Lemma groupby_sum_NoDup rows : NoDup (map fst (groupby_sum cmp rows)).
Proof. apply key_lt_NoDup, groupby_sum_StronglySorted. Qed.
End GroupByFacts.

(* ------------------------------------------------------------------ *)
(** ** Summary statistics *)

(** C1. For a frame with at least one row, [analyze] reports as total cost
    the arithmetic sum of the costs of the rows, and as average cost that
    total divided by the number of rows (costs are exact rationals, so the
    equalities hold without any tolerance). *)
Theorem analyze_total_and_average (rows : list CostPoint) :
  rows <> [] ->
  (total_cost (analyze (Table rows)) == sumQ (map Cost rows))%Q /\
  (average_cost (analyze (Table rows))
   == total_cost (analyze (Table rows))
      / inject_Z (Z.of_nat (List.length rows)))%Q.
Proof.
  intros Hne. destruct rows as [| r rows]; [contradiction |].
  unfold analyze; simpl empty; cbv iota; cbn [total_cost average_cost rows_of].
  split.
  - apply Series_sum_sumQ.
  - unfold Series_mean. rewrite length_map. reflexivity.
Qed.

(** C6. On an empty frame (no column, or no row) [analyze] returns the
    summary with the four amounts at zero and no date. *)
Theorem analyze_empty (df : DataFrame CostPoint) :
  empty df = true -> analyze df = zero_summary.
Proof. intros H; unfold analyze; rewrite H; reflexivity. Qed.

(* ------------------------------------------------------------------ *)
(** ** Derived daily totals *)

Lemma map_Cost_mkCost {K} (g : list (K * Q)) :
  map Cost (map (fun x => mkCost (fst x) (snd x)) g) = map snd g.
Proof. rewrite map_map; apply map_ext; reflexivity. Qed.

Lemma map_Date_mkCost {K} (g : list (K * Q)) :
  map Date (map (fun x => mkCost (fst x) (snd x)) g) = map fst g.
Proof. rewrite map_map; apply map_ext; reflexivity. Qed.

(** C3, in exact arithmetic.  [derive_daily_from_type] returns a table with
    one row per distinct date of the input, in ascending order of date,
    whose costs add up to the costs of its input when the sums are taken
    exactly.  It holds for every table, the one without rows included.
    With the binary64 additions of the script the two sums can differ by
    rounding, as the last section shows. *)
Theorem derive_daily_preserves_total (rows : list CostByTypePoint) :
  exists out,
    derive_daily_from_type (Table rows) = Ok (Table out) /\
    (sumQ (map Cost out) == sumQ (map TCost rows))%Q /\
    NoDup (map Date out) /\
    (forall d, In d (map Date out) <-> In d (map TDate rows)) /\
    ascending_by Date out.
Proof.
  unfold derive_daily_from_type; simpl.
  set (g := groupby_sum date_compare (map (fun r => (TDate r, TCost r)) rows)).
  set (l := map (fun x => mkCost (fst x) (snd x)) g).
  assert (Hperm : Permutation l
            (sort_rows (fun a b => date_leb (Date a) (Date b)) l))
    by apply sort_rows_perm.
  eexists; split; [reflexivity |].
  repeat split.
  - rewrite <- (sumQ_perm _ _ (Permutation_map Cost Hperm)).
    unfold l; rewrite map_Cost_mkCost. unfold g.
    rewrite groupby_sum_total, map_map; simpl. reflexivity.
  - apply (Permutation_NoDup (Permutation_map Date Hperm)).
    unfold l; rewrite map_Date_mkCost.
    apply groupby_sum_NoDup.
    + apply date_compare_eq.
    + apply date_compare_antisym.
    + apply date_compare_lt_trans.
  - intros H.
    apply (Permutation_in _ (Permutation_sym (Permutation_map Date Hperm)))
      in H.
    unfold l in H; rewrite map_Date_mkCost in H.
    apply (proj1 (groupby_sum_keys _ date_compare_eq _ d)) in H.
    rewrite map_map in H; exact H.
  - intros H.
    apply (Permutation_in _ (Permutation_map Date Hperm)).
    unfold l; rewrite map_Date_mkCost.
    apply (proj2 (groupby_sum_keys _ date_compare_eq _ d)).
    rewrite map_map; exact H.
  - apply sort_by_date_ascending.
Qed.

(* ------------------------------------------------------------------ *)
(** ** Bar chart *)

Lemma string_compare_eq a b : String.compare a b = Eq <-> a = b.
Proof. apply String_as_OT.cmp_eq. Qed.

Lemma string_compare_antisym a b :
  String.compare b a = CompOpp (String.compare a b).
Proof. apply String.compare_antisym. Qed.

Lemma string_compare_lt_trans a b c :
  String.compare a b = Lt -> String.compare b c = Lt ->
  String.compare a c = Lt.
Proof.
  intros H1 H2. apply String_as_OT.cmp_lt in H1, H2.
  apply String_as_OT.cmp_lt. eapply String_as_OT.lt_trans; eassumption.
Qed.

Lemma total_of_cost_of_type t rows :
  (total_of String.compare t (map (fun r => (InstanceType r, TCost r)) rows)
   == cost_of_type t rows)%Q.
Proof.
  unfold cost_of_type.
  induction rows as [| r rows IH]; simpl.
  - reflexivity.
  - rewrite total_of_cons, IH; simpl.
    destruct (same_key String.compare t (InstanceType r, TCost r)) eqn:Hs;
      destruct (String.eqb (InstanceType r) t) eqn:He; simpl; try ring.
    + apply (same_key_true _ string_compare_eq) in Hs; simpl in Hs.
      apply String.eqb_neq in He; contradiction.
    + apply String.eqb_eq in He.
      assert (Ht : same_key String.compare t (InstanceType r, TCost r) = true)
        by (apply (same_key_true _ string_compare_eq); exact He).
      congruence.
Qed.

Lemma Qle_bool_total a b : Qle_bool a b = true \/ Qle_bool b a = true.
Proof.
  rewrite !Qle_bool_iff.
  destruct (Qlt_le_dec a b) as [H | H]; [left; apply Qlt_le_weak, H | right; exact H].
Qed.

(** C7. The bars drawn by [plot_by_type] are the pairs of [type_totals]:
    no instance type occurs twice, the types are exactly those of the
    table, the height of a bar is the sum of the costs of the rows of its
    type over all dates, and the heights never increase along the bars. *)
Theorem bar_chart_totals (rows : list CostByTypePoint)
  (images_dir : string) (fs : filesystem) :
  exists out fs',
    plot_by_type (Table rows) images_dir fs = Ok (out, fs') /\
    fs' out = Some (BarPlot (type_totals rows)) /\
    NoDup (map fst (type_totals rows)) /\
    (forall t, In t (map fst (type_totals rows))
               <-> In t (map InstanceType rows)) /\
    (forall t h, In (t, h) (type_totals rows) ->
                 (h == cost_of_type t rows)%Q) /\
    descending_by_cost (type_totals rows).
Proof.
  do 2 eexists; split; [reflexivity |].
  split; [unfold write_file; rewrite String.eqb_refl; reflexivity |].
  unfold type_totals.
  set (table := map (fun r => (InstanceType r, TCost r)) rows).
  set (g := groupby_sum String.compare table).
  assert (Hperm : Permutation g
            (sort_rows (fun a b => Qle_bool (snd b) (snd a)) g))
    by apply sort_rows_perm.
  assert (Hnd : NoDup (map fst g)).
  { apply groupby_sum_NoDup.
    - apply string_compare_eq.
    - apply string_compare_antisym.
    - apply string_compare_lt_trans. }
  repeat split.
  - apply (Permutation_NoDup (Permutation_map fst Hperm)), Hnd.
  - intros H.
    apply (Permutation_in _ (Permutation_sym (Permutation_map fst Hperm)))
      in H.
    apply (proj1 (groupby_sum_keys _ string_compare_eq _ t)) in H.
    unfold table in H; rewrite map_map in H; exact H.
  - intros H.
    apply (Permutation_in _ (Permutation_map fst Hperm)).
    apply (proj2 (groupby_sum_keys _ string_compare_eq _ t)).
    unfold table; rewrite map_map; exact H.
  - intros t h Hin.
    apply (Permutation_in _ (Permutation_sym Hperm)) in Hin.
    rewrite <- (total_of_unique _ string_compare_eq t h g Hnd Hin).
    unfold g. rewrite (groupby_sum_total_of _ string_compare_eq).
    apply total_of_cost_of_type.
  - apply Sorted_StronglySorted.
    + intros a b c Hab Hbc; eapply Qle_trans; eassumption.
    + assert (Hs := sort_rows_Sorted
                      (fun a b : string * Q => Qle_bool (snd b) (snd a))
                      (fun a b => Qle_bool_total (snd b) (snd a)) g).
      eapply Sorted_weaken; [| exact Hs].
      intros a b Hab; apply Qle_bool_iff; exact Hab.
Qed.

(* ------------------------------------------------------------------ *)
(** ** Normalising the total series *)

Lemma map_result_compose {A B C} (f : A -> result B) (g : B -> result C)
  xs zs :
  map_result (fun x => y <- f x ;; g y) xs = Ok zs ->
  exists ys, map_result f xs = Ok ys /\ map_result g ys = Ok zs.
Proof.
  revert zs; induction xs as [| x xs IH]; simpl; intros zs H.
  - injection H as <-; exists []; split; reflexivity.
  - open_bind H. open_bind H. injection H as <-.
    open_bind Hv. destruct (IH _ Hv0) as (ys & Hys & Hzs).
    exists (v1 :: ys); simpl.
    rewrite Hv1, Hys; simpl. rewrite Hv, Hzs; simpl. split; reflexivity.
Qed.

Lemma pd_DataFrame_nonempty {R} (rec : list R) :
  rec <> [] -> pd_DataFrame rec = Table rec.
Proof. destruct rec; [contradiction | reflexivity]. Qed.

Lemma length_nonempty {A} (l : list A) : l <> [] <-> List.length l <> 0.
Proof. destruct l; simpl; split; congruence. Qed.

(** A total series of [N >= 1] well-formed entries is normalised to exactly
    the [N] points of its entries, none lost and none repeated, in ascending
    order of date. *)
Lemma df_daily_total_rows (results : list json) (points : list CostPoint) :
  results <> [] ->
  Forall2 (fun e p => daily_point e = Ok p) results points ->
  exists out,
    df_daily_total results = Ok (Table out) /\
    Permutation points out /\
    ascending_by Date out /\
    List.length out = List.length results.
Proof.
  intros Hne Hwf. apply map_result_Forall2 in Hwf.
  unfold daily_point in Hwf.
  apply map_result_compose in Hwf as (recs & Hrecs & Hpts).
  assert (Hlen : List.length recs = List.length results)
    by (eapply map_result_length; eassumption).
  assert (Hrne : recs <> [])
    by (apply length_nonempty; rewrite Hlen; apply length_nonempty, Hne).
  exists (sort_rows (fun a b => date_leb (Date a) (Date b)) points).
  split; [| split; [| split]].
  - unfold df_daily_total, daily_to_datetime.
    rewrite Hrecs; cbn [bind].
    rewrite (pd_DataFrame_nonempty _ Hrne); cbn [column bind].
    unfold CostPoint in *. rewrite Hpts; reflexivity.
  - apply sort_rows_perm.
  - apply sort_by_date_ascending.
  - rewrite sort_rows_length, <- Hlen.
    eapply map_result_length; eassumption.
Qed.

(** C4, at the array without entries: [pd.DataFrame([])] has no [Date]
    column, so [df_daily_total] raises [KeyError] instead of returning a
    table of zero rows.  For one entry or more the round trip holds
    ([df_daily_total_rows]). *)
Theorem df_daily_total_no_entries :
  df_daily_total [] = Raise (KeyError "Date").
Proof. reflexivity. Qed.

(** The normalisers never return a frame without rows. *)
Lemma sort_values_Date_nonempty {R} (date : R -> Timestamp) df df' :
  sort_values_Date date df = Ok df' -> empty df = false -> empty df' = false.
Proof.
  destruct df as [| rows]; simpl; [discriminate |].
  intros H; injection H as <-.
  destruct rows as [| r rows]; [discriminate | intros _].
  assert (Hl := sort_rows_length (fun a b => date_leb (date a) (date b))
                  (r :: rows)).
  destruct (sort_rows _ (r :: rows)); [discriminate | reflexivity].
Qed.

Lemma df_daily_total_not_empty results df :
  df_daily_total results = Ok df -> empty df = false.
Proof.
  unfold df_daily_total; intros H.
  open_bind H. open_bind H.
  apply (sort_values_Date_nonempty _ _ _ H).
  unfold daily_to_datetime in Hv0.
  destruct v as [| r recs]; [discriminate |]. cbn [pd_DataFrame column bind] in Hv0.
  apply bind_Ok_inv in Hv0 as (rows' & Hrows & Hdf). injection Hdf as <-.
  apply map_result_length in Hrows.
  destruct rows'; [discriminate | reflexivity].
Qed.

Lemma df_by_type_not_empty results df :
  df_by_type results = Ok df -> empty df = false.
Proof.
  unfold df_by_type; intros H.
  open_bind H. open_bind H.
  apply (sort_values_Date_nonempty _ _ _ H).
  unfold type_to_datetime in Hv0.
  destruct v as [| r recs]; [discriminate |]. cbn [pd_DataFrame column bind] in Hv0.
  apply bind_Ok_inv in Hv0 as (rows' & Hrows & Hdf). injection Hdf as <-.
  apply map_result_length in Hrows.
  destruct rows'; [discriminate | reflexivity].
Qed.

Lemma derive_daily_not_empty df_type df :
  derive_daily_from_type df_type = Ok df ->
  empty df_type = false -> empty df = false.
Proof.
  unfold derive_daily_from_type; intros H Hne.
  open_bind H. apply (sort_values_Date_nonempty _ _ _ H).
  destruct df_type as [| rows]; [discriminate |].
  injection Hv as <-. destruct rows as [| r rows]; [discriminate |].
  assert (Hin : In (TDate r)
            (map fst (groupby_sum date_compare
               (map (fun r => (TDate r, TCost r)) (r :: rows)))))
    by (apply (groupby_sum_keys _ date_compare_eq); left; reflexivity).
  destruct (groupby_sum _ _); [contradiction | reflexivity].
Qed.

(* ------------------------------------------------------------------ *)
(** ** Entries with a missing field *)

Lemma getitem_total v k :
  (exists x, getitem v k = Ok x) \/ (exists ex, getitem v k = Raise ex).
Proof.
  destruct v; simpl; eauto.
  destruct (dict_get k fields); eauto.
Qed.

Lemma get_path_total path v :
  (exists x, get_path path v = Ok x) \/ (exists ex, get_path path v = Raise ex).
Proof.
  revert v; induction path as [| k path IH]; simpl; intros v; eauto.
  destruct (getitem_total v k) as [[x ->] | [ex ->]]; simpl; eauto.
Qed.

(** Subscripting along a path that is not there raises. *)
Lemma lacks_get_path path v :
  lacks path v -> exists ex, get_path path v = Raise ex.
Proof.
  unfold lacks; revert v; induction path as [| k path IH]; simpl; intros v H.
  - discriminate.
  - destruct v; simpl; eauto.
    destruct (dict_get k fields); simpl; eauto.
Qed.

Lemma has_path_get_path path v :
  has_path path v = true -> exists x, get_path path v = Ok x.
Proof.
  revert v; induction path as [| k path IH]; simpl; intros v H; eauto.
  destruct v; try discriminate; simpl.
  destruct (dict_get k fields); [| discriminate]; simpl; auto.
Qed.

Lemma daily_total_record_paths e :
  daily_total_record e =
  (start <- get_path start_path e ;;
   amount <- get_path total_amount_path e ;;
   cost <- float amount ;;
   Ok (mkCost start cost)).
Proof.
  unfold daily_total_record; simpl.
  destruct (getitem e "TimePeriod"); simpl; try reflexivity.
  destruct (getitem a "Start"); simpl; try reflexivity.
  destruct (getitem e "Total"); simpl; try reflexivity.
  destruct (getitem a1 "UnblendedCost"); simpl; try reflexivity.
  destruct (getitem a2 "Amount"); simpl; reflexivity.
Qed.

Lemma malformed_daily_raises e :
  malformed_daily e -> exists ex, daily_total_record e = Raise ex.
Proof.
  rewrite daily_total_record_paths. intros [H | H].
  - apply lacks_get_path in H as [ex ->]; cbn [bind]; eauto.
  - destruct (get_path_total start_path e) as [[x ->] | [ex ->]];
      cbn [bind]; eauto.
    apply lacks_get_path in H as [ex ->]; cbn [bind]; eauto.
Qed.

Lemma entry_records_paths e :
  entry_records e =
  (date <- get_path start_path e ;;
   groups <- dict_get_method e "Groups" ;;
   gs <- match groups with
         | Some v => iterate v
         | None => Ok []
         end ;;
   map_result (group_record date) gs).
Proof.
  unfold entry_records; simpl.
  destruct (getitem e "TimePeriod"); simpl; try reflexivity.
  destruct (getitem a "Start"); simpl; reflexivity.
Qed.

Lemma getitem0_total v :
  (exists x, getitem0 v = Ok x) \/ (exists ex, getitem0 v = Raise ex).
Proof.
  destruct v as [| | | s | items |]; simpl; eauto.
  - destruct (characters "" s); eauto.
  - destruct items; eauto.
Qed.

(** A group without its amount raises, whatever the date of its entry. *)
Lemma group_without_amount_raises date g :
  lacks group_amount_path g -> exists ex, group_record date g = Raise ex.
Proof.
  intros H. apply lacks_get_path in H as [ex H].
  unfold group_record.
  destruct g; simpl; eauto.
  assert (Hit : forall c : result json,
             (exists x, c = Ok x) \/ (exists ex', c = Raise ex') ->
             exists ex',
               (itype <- c ;;
                m <- getitem (JObj fields) "Metrics" ;;
                uc <- getitem m "UnblendedCost" ;;
                amount <- getitem uc "Amount" ;;
                cost <- float amount ;;
                Ok (mkType date itype cost)) = Raise ex').
  { intros c [[x ->] | [ex' ->]]; simpl; eauto.
    simpl in H.
    destruct (dict_get "Metrics" fields); simpl in *; eauto.
    destruct (getitem j "UnblendedCost"); simpl in *; eauto; try discriminate.
    destruct (getitem a "Amount"); simpl in *; eauto; discriminate. }
  apply Hit.
  destruct (match dict_get "Keys" fields with
            | Some v => truthy v
            | None => false
            end); eauto.
  destruct (dict_get "Keys" fields); simpl; eauto.
  apply getitem0_total.
Qed.

Lemma groups_of_iterate e g :
  In g (groups_of e) ->
  exists fields v,
    e = JObj fields /\ dict_get "Groups" fields = Some v /\
    iterate v = Ok (groups_of e).
Proof.
  unfold groups_of. destruct e; try contradiction.
  destruct (dict_get "Groups" fields) as [v |] eqn:Hg; [| contradiction].
  destruct (iterate v) eqn:Hi; try contradiction.
  intros _; exists fields, v; auto.
Qed.

Lemma malformed_grouped_not_Ok e :
  malformed_grouped e -> forall recs, entry_records e <> Ok recs.
Proof.
  rewrite entry_records_paths. intros [H | (g & Hin & Hg)] recs Hok.
  - apply lacks_get_path in H as [ex H]. rewrite H in Hok; discriminate.
  - destruct (groups_of_iterate _ _ Hin) as (fields & v & -> & Hgr & Hit).
    apply bind_Ok_inv in Hok as (date & _ & Hok).
    simpl in Hok. rewrite Hgr, Hit in Hok; simpl in Hok.
    revert Hok. apply (map_result_not_Ok _ _ g Hin).
    intros y Hy. destruct (group_without_amount_raises date g Hg) as [ex Hex].
    congruence.
Qed.

Lemma entry_without_start_raises e :
  lacks start_path e -> exists ex, entry_records e = Raise ex.
Proof.
  rewrite entry_records_paths. intros H.
  apply lacks_get_path in H as [ex ->]; simpl; eauto.
Qed.

Lemma entry_group_fault_raises e date gpre g gpost :
  get_path start_path e = Ok date ->
  groups_of e = (gpre ++ g :: gpost)%list ->
  Forall (yields (group_record date)) gpre ->
  lacks group_amount_path g ->
  exists ex, entry_records e = Raise ex.
Proof.
  intros Hd Hgs Hpre Hg.
  assert (Hin : In g (groups_of e))
    by (rewrite Hgs; apply in_or_app; right; left; reflexivity).
  destruct (groups_of_iterate _ _ Hin) as (fields & v & -> & Hgr & Hit).
  rewrite entry_records_paths, Hd; simpl. rewrite Hgr, Hit, Hgs; simpl.
  destruct (group_without_amount_raises date g Hg) as [ex Hex].
  exists ex; apply map_result_first_raise; assumption.
Qed.

(** C5, for the fields the script subscripts.  An entry of the total
    series lacking the period start or the amount, and an entry of the
    grouped series lacking the period start or holding a group that lacks
    the amount, make the normaliser fail: it never returns a table (parts 1
    and 2), and it raises a Python exception as soon as the entries, and
    the groups, before the faulty one go through (parts 3 to 5).  The
    exception is the one of the failed subscript ([KeyError] for a missing
    key, [TypeError] or [AttributeError] when the value is not a dict); it
    is not caught.  A grouped entry without any [Groups] key is not among
    them: [e.get("Groups", [])] skips it. *)
Theorem missing_field_is_surfaced :
  (forall results e df,
      In e results -> malformed_daily e -> df_daily_total results <> Ok df) /\
  (forall results e df,
      In e results -> malformed_grouped e -> df_by_type results <> Ok df) /\
  (forall pre e post,
      Forall (yields daily_total_record) pre -> malformed_daily e ->
      is_exception (df_daily_total (pre ++ e :: post)%list)) /\
  (forall pre e post,
      Forall (yields entry_records) pre -> lacks start_path e ->
      is_exception (df_by_type (pre ++ e :: post)%list)) /\
  (forall pre e post date gpre g gpost,
      Forall (yields entry_records) pre ->
      get_path start_path e = Ok date ->
      groups_of e = (gpre ++ g :: gpost)%list ->
      Forall (yields (group_record date)) gpre ->
      lacks group_amount_path g ->
      is_exception (df_by_type (pre ++ e :: post)%list)).
Proof.
  repeat apply conj.
  - intros results e df Hin Hm. unfold df_daily_total.
    apply bind_not_Ok. apply (map_result_not_Ok _ _ e Hin).
    intros y Hy. destruct (malformed_daily_raises e Hm) as [ex Hex].
    congruence.
  - intros results e df Hin Hm. unfold df_by_type.
    apply bind_not_Ok. apply (for_each_not_Ok _ _ e Hin).
    apply malformed_grouped_not_Ok, Hm.
  - intros pre e post Hpre Hm.
    destruct (malformed_daily_raises e Hm) as [ex Hex].
    exists ex. unfold df_daily_total.
    apply bind_Raise, map_result_first_raise; assumption.
  - intros pre e post Hpre Hm.
    destruct (entry_without_start_raises e Hm) as [ex Hex].
    exists ex. unfold df_by_type.
    apply bind_Raise, for_each_first_raise; assumption.
  - intros pre e post date gpre g gpost Hpre Hd Hgs Hgpre Hg.
    destruct (entry_group_fault_raises e date gpre g gpost Hd Hgs Hgpre Hg)
      as [ex Hex].
    exists ex. unfold df_by_type.
    apply bind_Raise, for_each_first_raise; assumption.
Qed.

(* ------------------------------------------------------------------ *)
(** ** Entries without groups *)

(** C10. An entry of the grouped series with a period start and no
    [Groups] key contributes no record and raises nothing: [df_by_type]
    returns what it returns on the series without that entry. *)
Theorem entry_without_groups_is_dropped (pre post : list json)
  (fields : list (string * json)) :
  has_path start_path (JObj fields) = true ->
  dict_get "Groups" fields = None ->
  entry_records (JObj fields) = Ok [] /\
  df_by_type (pre ++ JObj fields :: post)%list = df_by_type (pre ++ post)%list.
Proof.
  intros Hs Hg.
  assert (He : entry_records (JObj fields) = Ok []).
  { rewrite entry_records_paths.
    apply has_path_get_path in Hs as [date ->]; simpl.
    rewrite Hg; reflexivity. }
  split; [exact He |].
  unfold df_by_type. rewrite (for_each_skip _ _ _ _ He). reflexivity.
Qed.

(* ------------------------------------------------------------------ *)
(** ** Paths of the artifacts *)

Lemma string_length_app a b :
  String.length (a ++ b) = String.length a + String.length b.
Proof. induction a as [| c a IH]; simpl; [reflexivity | rewrite IH; reflexivity]. Qed.

Lemma path_join_length a :
  exists d, d <= 1 /\
    forall b, String.length (path_join a b)
              = String.length a + String.length b + d.
Proof.
  unfold path_join. destruct (String.eqb a "") eqn:Ha.
  - apply String.eqb_eq in Ha; subst. exists 0; split; [lia |].
    intros b; simpl; lia.
  - destruct (ends_with_slash a).
    + exists 0; split; [lia |]. intros b; rewrite string_length_app; lia.
    + exists 1; split; [lia |]. intros b.
      rewrite !string_length_app; simpl; lia.
Qed.

Lemma output_paths_distinct out_dir :
  line_path out_dir <> bar_path out_dir /\
  line_path out_dir <> report_path out_dir /\
  bar_path out_dir <> report_path out_dir.
Proof.
  unfold line_path, bar_path, report_path.
  destruct (path_join_length out_dir) as (d1 & Hd1 & H1).
  destruct (path_join_length (path_join out_dir "images")) as (d2 & Hd2 & H2).
  assert (Hl := H2 "cost_over_time.png").
  assert (Hb := H2 "cost_per_instance_type.png").
  assert (Hr := H1 "ec2_cost_report.html").
  rewrite (H1 "images") in Hl, Hb. simpl String.length in Hl, Hb, Hr.
  repeat split; intros Heq; rewrite Heq in *; lia.
Qed.

Lemma write_file_same path c fs : write_file path c fs path = Some c.
Proof. unfold write_file; rewrite String.eqb_refl; reflexivity. Qed.

Lemma write_file_other path c fs p :
  p <> path -> write_file path c fs p = fs p.
Proof.
  intros H; unfold write_file.
  apply String.eqb_neq in H; rewrite H; reflexivity.
Qed.

(* ------------------------------------------------------------------ *)
(** ** Writing the report *)

Lemma write_html_unfold analysis line_plot bar_plot path now fs :
  write_html analysis line_plot bar_plot path now fs =
  write_file path
    (TextFile (html_document analysis
                 (relpath line_plot (dirname path))
                 (relpath bar_plot (dirname path)) now))
    (open_w path fs).
Proof.
  unfold write_html, write_html_states, file_write; cbn [last].
  unfold open_w at 1 2. rewrite write_file_same. reflexivity.
Qed.

(** C9, as the script has it.  [write_html] goes through three states of the
    file system: the one it finds; the one after [open], where the report
    exists and is empty; the one after the write, where the report holds the
    whole document, which is also the state it returns.  No other file is
    touched in any of them. *)
Theorem write_html_steps (analysis : Summary)
  (line_plot bar_plot path now : string) (fs : filesystem) :
  let html := html_document analysis (relpath line_plot (dirname path))
                (relpath bar_plot (dirname path)) now in
  exists fs1 fs2,
    write_html_states analysis line_plot bar_plot path now fs = [fs; fs1; fs2] /\
    fs1 path = Some (TextFile "") /\
    fs2 path = Some (TextFile html) /\
    write_html analysis line_plot bar_plot path now fs = fs2 /\
    (forall p, p <> path -> fs1 p = fs p /\ fs2 p = fs p).
Proof.
  intros html.
  exists (open_w path fs), (write_file path (TextFile html) (open_w path fs)).
  repeat apply conj.
  - unfold write_html_states, file_write.
    unfold open_w at 2 3. rewrite write_file_same. reflexivity.
  - apply write_file_same.
  - apply write_file_same.
  - apply write_html_unfold.
  - intros p Hp. unfold open_w.
    rewrite !write_file_other by exact Hp. split; reflexivity.
Qed.

(** C9, atomicity, fails: writing the report of the empty summary into a
    directory without files, the state after [open] has a report file that
    is not the whole document. *)
Lemma write_html_not_atomic :
  let path := "output/ec2_cost_report.html" in
  let line := "output/images/cost_over_time.png" in
  let bar := "output/images/cost_per_instance_type.png" in
  let now := "2024-02-01 00:00:00" in
  let html := html_document zero_summary (relpath line (dirname path))
                (relpath bar (dirname path)) now in
  ~ Forall (absent_or_complete path html)
      (write_html_states zero_summary line bar path now no_files).
Proof.
  intros path line bar now html H.
  inversion H as [| st0 l0 _ H1]; subst.
  inversion H1 as [| st1 l1 Hst1 _]; subst.
  destruct Hst1 as [Hnone | Hfull].
  - unfold open_w in Hnone. rewrite write_file_same in Hnone. discriminate.
  - unfold open_w in Hfull. rewrite write_file_same in Hfull.
    vm_compute in Hfull. discriminate.
Qed.

(* ------------------------------------------------------------------ *)
(** ** The driver *)

(** C2, at its input: when the grouped-series file holds the empty array,
    [main] stops with [KeyError: 'Date'], raised by [df_by_type] on the
    frame without columns; no summary is computed and no report written. *)
Theorem main_empty_grouped_series (in_dir out_dir now : string)
  (fs : filesystem) :
  fs (type_path in_dir) = Some (JsonFile []) ->
  main in_dir out_dir now fs = Raise (KeyError "Date").
Proof.
  intros H. unfold main, path_exists, load_json.
  fold (type_path in_dir). rewrite H. reflexivity.
Qed.

(** What a successful run has done. *)
Lemma main_Ok_inv in_dir out_dir now fs fs' :
  main in_dir out_dir now fs = Ok fs' ->
  exists results df_type df_daily,
    fs (type_path in_dir) = Some (JsonFile results) /\
    df_by_type results = Ok df_type /\
    daily_source in_dir fs df_daily /\
    empty df_daily = false /\
    fs' = write_html (analyze df_daily) (line_path out_dir) (bar_path out_dir)
            (report_path out_dir) now
            (write_file (bar_path out_dir)
               (BarPlot (type_totals (rows_of df_type)))
               (write_file (line_path out_dir)
                  (LinePlot (line_points df_daily)) fs)).
Proof.
  unfold main. fold (type_path in_dir) (daily_path in_dir)
    (report_path out_dir).
  unfold path_exists, load_json.
  destruct (fs (type_path in_dir)) as [[results | | |] |] eqn:Htype;
    simpl; try discriminate.
  intros H.
  apply bind_Ok_inv in H as (df_type & Htyp & H).
  apply bind_Ok_inv in H as (df_daily & Hdaily & H).
  apply bind_Ok_inv in H as ([p1 fsa] & Hp1 & H).
  apply bind_Ok_inv in H as ([p2 fsb] & Hp2 & H).
  injection H as <-.
  exists results, df_type, df_daily.
  assert (Hsrc : daily_source in_dir fs df_daily).
  { unfold daily_source.
    destruct (fs (daily_path in_dir)) as [[daily | | |] |] eqn:Hd;
      simpl in Hdaily; try discriminate.
    - exists daily; split; [reflexivity | exact Hdaily].
    - exists results, df_type; auto. }
  assert (Hne : empty df_daily = false).
  { assert (Ht := df_by_type_not_empty _ _ Htyp).
    destruct (fs (daily_path in_dir)) as [[daily | | |] |] eqn:Hd;
      simpl in Hdaily; try discriminate.
    - eapply df_daily_total_not_empty; eassumption.
    - eapply derive_daily_not_empty; eassumption. }
  repeat split; try assumption.
  unfold plot_daily in Hp1. unfold plot_by_type in Hp2.
  destruct df_daily as [| rows]; [discriminate |].
  destruct df_type as [| trows]; [discriminate |].
  simpl in Hp1, Hp2. injection Hp1 as <- <-. injection Hp2 as <- <-.
  reflexivity.
Qed.

Lemma main_outputs in_dir out_dir now fs fs' :
  main in_dir out_dir now fs = Ok fs' ->
  exists df_daily,
    daily_source in_dir fs df_daily /\
    fs' (line_path out_dir) = Some (LinePlot (line_points df_daily)) /\
    fs' (report_path out_dir)
    = Some (TextFile (report_text out_dir now (analyze df_daily))).
Proof.
  intros H.
  apply main_Ok_inv in H
    as (results & df_type & df_daily & _ & _ & Hsrc & _ & ->).
  destruct (output_paths_distinct out_dir) as (Hlb & Hlr & Hbr).
  exists df_daily. split; [exact Hsrc |].
  rewrite write_html_unfold. split.
  - rewrite write_file_other by exact Hlr.
    unfold open_w. rewrite write_file_other by exact Hlr.
    rewrite write_file_other by exact Hlb.
    apply write_file_same.
  - apply write_file_same.
Qed.

(** C8. After a successful run the line chart and the summary of the report
    are those of one daily frame, and that frame is [df_daily_total] of the
    total-series file whenever the file is there; it is derived from the
    grouped series only when the file is missing.  Hence two runs on the
    same total-series file write the same line chart and the same report,
    whatever their grouped series. *)
Theorem total_series_used_verbatim (in_dir out_dir now : string)
  (fs fs' : filesystem) :
  main in_dir out_dir now fs = Ok fs' ->
  (exists df_daily,
      daily_source in_dir fs df_daily /\
      fs' (line_path out_dir) = Some (LinePlot (line_points df_daily)) /\
      fs' (report_path out_dir)
      = Some (TextFile (report_text out_dir now (analyze df_daily)))) /\
  (forall daily,
      fs (daily_path in_dir) = Some (JsonFile daily) ->
      exists df_daily,
        df_daily_total daily = Ok df_daily /\
        fs' (line_path out_dir) = Some (LinePlot (line_points df_daily)) /\
        fs' (report_path out_dir)
        = Some (TextFile (report_text out_dir now (analyze df_daily)))) /\
  (forall other other',
      fs (daily_path in_dir) <> None ->
      other (daily_path in_dir) = fs (daily_path in_dir) ->
      main in_dir out_dir now other = Ok other' ->
      other' (line_path out_dir) = fs' (line_path out_dir) /\
      other' (report_path out_dir) = fs' (report_path out_dir)).
Proof.
  intros H.
  destruct (main_outputs _ _ _ _ _ H) as (df & Hsrc & Hline & Hrep).
  repeat apply conj.
  - exists df; auto.
  - intros daily Hd. exists df. unfold daily_source in Hsrc.
    rewrite Hd in Hsrc. destruct Hsrc as (daily' & Heq & Hdf).
    injection Heq as <-. auto.
  - intros other other' Hsome Hsame Hrun.
    destruct (main_outputs _ _ _ _ _ Hrun) as (df' & Hsrc' & Hline' & Hrep').
    unfold daily_source in Hsrc, Hsrc'. rewrite Hsame in Hsrc'.
    destruct (fs (daily_path in_dir)) as [c |]; [| contradiction].
    destruct Hsrc as (daily & -> & Hdf).
    destruct Hsrc' as (daily' & Heq & Hdf').
    injection Heq as <-.
    assert (df' = df) by congruence. subst df'.
    rewrite Hline, Hrep, Hline', Hrep'. split; reflexivity.
Qed.

(* ------------------------------------------------------------------ *)
(** ** The statements on the sample inputs *)

(** The scenario of the specification: the grouped series is normalised to
    three rows, the derived daily totals are 3.5 and 1.2, and the summary
    is total 4.7, average 2.35, maximum on the first day, minimum on the
    second. *)
Example scenario_by_type :
  df_by_type sample_grouped = Ok (Table sample_by_type).
Proof. reflexivity. Qed.

Example scenario_summary :
  exists df,
    derive_daily_from_type (Table sample_by_type) = Ok df /\
    map Date (rows_of df) = map Date sample_daily /\
    (total_cost (analyze df) == 4.7)%Q /\
    (average_cost (analyze df) == 2.35)%Q /\
    (max_cost (analyze df) == 3.5)%Q /\
    max_cost_date (analyze df) = Some "2024-01-01" /\
    (min_cost (analyze df) == 1.2)%Q /\
    min_cost_date (analyze df) = Some "2024-01-02".
Proof. eexists; split; [reflexivity |]. repeat split. Qed.

Lemma analyze_total_and_average_witness :
  sample_daily <> [] /\
  (total_cost (analyze (Table sample_daily)) == sumQ (map Cost sample_daily))%Q /\
  (average_cost (analyze (Table sample_daily))
   == total_cost (analyze (Table sample_daily))
      / inject_Z (Z.of_nat (List.length sample_daily)))%Q.
Proof.
  split; [discriminate |].
  apply (analyze_total_and_average sample_daily); discriminate.
Defined.

Lemma analyze_empty_witness :
  empty (@NoColumns CostPoint) = true /\
  analyze (@NoColumns CostPoint) = zero_summary.
Proof. split; [reflexivity | apply (analyze_empty NoColumns); reflexivity]. Defined.

Lemma bar_chart_totals_witness :
  In ("t2.micro", 2.20%Q) (type_totals sample_by_type) /\
  (2.20 == cost_of_type "t2.micro" sample_by_type)%Q.
Proof.
  assert (Hin : In ("t2.micro", 2.20%Q) (type_totals sample_by_type))
    by (right; left; reflexivity).
  split; [exact Hin |].
  destruct (bar_chart_totals sample_by_type "output/images" no_files)
    as (out & fs' & _ & _ & _ & _ & Hheight & _).
  apply Hheight; exact Hin.
Defined.

Lemma missing_field_is_surfaced_witness :
  (Forall (yields daily_total_record) sample_total /\
   malformed_daily entry_without_amount /\
   is_exception
     (df_daily_total (sample_total ++ [entry_without_amount])%list)) /\
  (In entry_with_bad_group (sample_grouped ++ [entry_with_bad_group])%list /\
   malformed_grouped entry_with_bad_group /\
   forall df,
     df_by_type (sample_grouped ++ [entry_with_bad_group])%list <> Ok df).
Proof.
  assert (Hpre : Forall (yields daily_total_record) sample_total)
    by (repeat constructor; eexists; reflexivity).
  assert (Hbad : malformed_daily entry_without_amount)
    by (right; reflexivity).
  assert (Hin : In entry_with_bad_group
                  (sample_grouped ++ [entry_with_bad_group])%list)
    by (right; right; left; reflexivity).
  assert (Hgrp : malformed_grouped entry_with_bad_group).
  { right. exists (JObj [("Keys", JArr [JStr "m5.large"])]).
    split; [right; left; reflexivity | reflexivity]. }
  destruct missing_field_is_surfaced as (_ & Hnever & Hraise & _).
  split; repeat split; try assumption.
  - apply (Hraise sample_total entry_without_amount []); assumption.
  - intros df. apply (Hnever _ entry_with_bad_group df); assumption.
Defined.

Lemma entry_without_groups_is_dropped_witness :
  has_path start_path (JObj fields_without_groups) = true /\
  dict_get "Groups" fields_without_groups = None /\
  entry_records (JObj fields_without_groups) = Ok [] /\
  df_by_type (sample_grouped ++ [JObj fields_without_groups])%list
  = df_by_type (sample_grouped ++ [])%list.
Proof.
  split; [reflexivity |]. split; [reflexivity |].
  apply (entry_without_groups_is_dropped sample_grouped []
           fields_without_groups); reflexivity.
Defined.

Lemma main_empty_grouped_series_witness :
  empty_series_files (type_path ".") = Some (JsonFile []) /\
  main "." "output" sample_now empty_series_files = Raise (KeyError "Date").
Proof.
  split; [reflexivity |].
  apply (main_empty_grouped_series "." "output" sample_now empty_series_files).
  reflexivity.
Defined.

Lemma sample_run_Ok :
  main "." "output" sample_now sample_files = Ok sample_run.
Proof. reflexivity. Qed.

Lemma total_series_used_verbatim_witness :
  main "." "output" sample_now sample_files = Ok sample_run /\
  sample_files (daily_path ".") = Some (JsonFile sample_total) /\
  exists df_daily,
    df_daily_total sample_total = Ok df_daily /\
    sample_run (line_path "output") = Some (LinePlot (line_points df_daily)) /\
    sample_run (report_path "output")
    = Some (TextFile (report_text "output" sample_now (analyze df_daily))).
Proof.
  split; [exact sample_run_Ok |]. split; [reflexivity |].
  destruct (total_series_used_verbatim "." "output" sample_now
              sample_files sample_run sample_run_Ok) as (_ & Hdaily & _).
  apply (Hdaily sample_total); reflexivity.
Defined.

Lemma write_html_steps_witness :
  "notes.txt" <> report_path "output" /\
  write_html zero_summary (line_path "output") (bar_path "output")
    (report_path "output") sample_now no_files "notes.txt" = None.
Proof.
  split; [discriminate |].
  destruct (write_html_steps zero_summary (line_path "output")
              (bar_path "output") (report_path "output") sample_now no_files)
    as (fs1 & fs2 & _ & _ & _ & -> & Hother).
  destruct (Hother "notes.txt") as [_ ->]; [discriminate | reflexivity].
Defined.

(* ================================================================== *)
(** * Further properties of the pipeline *)

(** ** The extremes of the summary *)

Section ScanFacts.
Context (beats : Q -> Q -> bool) (le lt : Q -> Q -> Prop).
Hypothesis beats_true : forall x b, beats x b = true -> lt b x.
Hypothesis beats_false : forall x b, beats x b = false -> le x b.
Hypothesis le_refl : forall a, le a a.
Hypothesis lt_le : forall a b, lt a b -> le a b.
Hypothesis le_lt_trans : forall a b c, le a b -> lt b c -> lt a c.

(** The scan returns the position of the first item that no item beats. *)
Lemma idx_scan_spec xs : forall pre best_i best,
  nth_error pre best_i = Some best ->
  (forall y, In y pre -> le y best) ->
  (forall j y, j < best_i -> nth_error pre j = Some y -> lt y best) ->
  let m := scan_best beats best xs in
  let k := idx_scan beats best_i best (List.length pre) xs in
  nth_error (pre ++ xs)%list k = Some m /\
  (forall y, In y (pre ++ xs)%list -> le y m) /\
  (forall j y, j < k -> nth_error (pre ++ xs)%list j = Some y -> lt y m).
Proof.
  induction xs as [| x xs IH]; intros pre best_i best Hbest Hle Hlt; simpl.
  - rewrite app_nil_r. auto.
  - assert (Hlen : best_i < List.length pre)
      by (apply nth_error_Some; congruence).
    replace (pre ++ x :: xs)%list with ((pre ++ [x]) ++ xs)%list
      by (rewrite <- app_assoc; reflexivity).
    replace (S (List.length pre)) with (List.length (pre ++ [x])%list)
      by (rewrite length_app; simpl; lia).
    unfold scan_best; simpl. destruct (beats x best) eqn:Hb.
    + apply beats_true in Hb.
      apply IH.
      * rewrite nth_error_app2, Nat.sub_diag by lia. reflexivity.
      * intros y Hy. apply in_app_or in Hy as [Hy | [<- | []]].
        -- apply lt_le, (le_lt_trans _ best); auto.
        -- apply le_refl.
      * intros j y Hj Hy. rewrite nth_error_app1 in Hy by exact Hj.
        apply (le_lt_trans _ best); [| exact Hb].
        apply Hle. eapply nth_error_In; eassumption.
    + apply beats_false in Hb.
      rewrite length_app; simpl.
      replace (List.length pre + 1) with (List.length (pre ++ [x])%list)
        by (rewrite length_app; reflexivity).
      apply IH.
      * rewrite nth_error_app1 by exact Hlen. exact Hbest.
      * intros y Hy. apply in_app_or in Hy as [Hy | [<- | []]]; auto.
      * intros j y Hj Hy. rewrite nth_error_app1 in Hy by lia.
        eapply Hlt; eassumption.
Qed.
End ScanFacts.

Lemma fold_left_pointwise {A B} (f g : A -> B -> A) xs a :
  (forall a b, f a b = g a b) -> fold_left f xs a = fold_left g xs a.
Proof.
  intros H; revert a; induction xs as [| x xs IH]; simpl; intros a.
  - reflexivity.
  - rewrite H; apply IH.
Qed.

Lemma Series_max_scan x xs :
  Series_max (x :: xs) = scan_best (fun a b => negb (Qle_bool a b)) x xs.
Proof.
  unfold Series_max, scan_best. apply fold_left_pointwise.
  intros a b; destruct (Qle_bool b a); reflexivity.
Qed.

Lemma Series_min_scan x xs :
  Series_min (x :: xs) = scan_best (fun a b => negb (Qle_bool b a)) x xs.
Proof.
  unfold Series_min, scan_best. apply fold_left_pointwise.
  intros a b; destruct (Qle_bool a b); reflexivity.
Qed.

Lemma Qle_bool_false a b : Qle_bool a b = false -> (b < a)%Q.
Proof.
  intros H. apply Qnot_le_lt. intros Hle.
  apply Qle_bool_iff in Hle. congruence.
Qed.

(** Where the maximum of a column sits: the first position holding a
    value that no value exceeds. *)
Lemma idxmax_spec x xs :
  nth_error (x :: xs) (idxmax (x :: xs)) = Some (Series_max (x :: xs)) /\
  (forall y, In y (x :: xs) -> (y <= Series_max (x :: xs))%Q) /\
  (forall j y, j < idxmax (x :: xs) -> nth_error (x :: xs) j = Some y ->
               (y < Series_max (x :: xs))%Q).
Proof.
  rewrite Series_max_scan. unfold idxmax.
  apply (idx_scan_spec (fun a b => negb (Qle_bool a b)) Qle Qlt) with (pre := [x]).
  - intros a b H. apply Qle_bool_false. destruct (Qle_bool a b); [discriminate | reflexivity].
  - intros a b H. apply Qle_bool_iff. destruct (Qle_bool a b); [reflexivity | discriminate].
  - apply Qle_refl.
  - apply Qlt_le_weak.
  - apply Qle_lt_trans.
  - reflexivity.
  - intros y [<- | []]; apply Qle_refl.
  - intros j y Hj; lia.
Qed.

Lemma idxmin_spec x xs :
  nth_error (x :: xs) (idxmin (x :: xs)) = Some (Series_min (x :: xs)) /\
  (forall y, In y (x :: xs) -> (Series_min (x :: xs) <= y)%Q) /\
  (forall j y, j < idxmin (x :: xs) -> nth_error (x :: xs) j = Some y ->
               (Series_min (x :: xs) < y)%Q).
Proof.
  rewrite Series_min_scan. unfold idxmin.
  apply (idx_scan_spec (fun a b => negb (Qle_bool b a))
           (fun a b => (b <= a)%Q) (fun a b => (b < a)%Q)) with (pre := [x]).
  - intros a b H. apply Qle_bool_false. destruct (Qle_bool b a); [discriminate | reflexivity].
  - intros a b H. apply Qle_bool_iff. destruct (Qle_bool b a); [reflexivity | discriminate].
  - apply Qle_refl.
  - intros a b; apply Qlt_le_weak.
  - intros a b c Hab Hbc. eapply Qlt_le_trans; eassumption.
  - reflexivity.
  - intros y [<- | []]; apply Qle_refl.
  - intros j y Hj; lia.
Qed.

Lemma nth_error_map_inv {A B} (f : A -> B) l n y :
  nth_error (map f l) n = Some y ->
  exists x, nth_error l n = Some x /\ f x = y.
Proof.
  rewrite nth_error_map. destruct (nth_error l n) as [x |]; simpl; [| discriminate].
  intros H; injection H as <-. exists x; auto.
Qed.

Lemma analyze_extreme_rows (rows : list CostPoint) :
  rows <> [] ->
  (exists i r,
      nth_error rows i = Some r /\
      max_cost (analyze (Table rows)) = Cost r /\
      max_cost_date (analyze (Table rows)) = Some (strftime (Date r)) /\
      (forall r', In r' rows -> (Cost r' <= Cost r)%Q) /\
      (forall j r', j < i -> nth_error rows j = Some r' ->
                    (Cost r' < Cost r)%Q)) /\
  (exists i r,
      nth_error rows i = Some r /\
      min_cost (analyze (Table rows)) = Cost r /\
      min_cost_date (analyze (Table rows)) = Some (strftime (Date r)) /\
      (forall r', In r' rows -> (Cost r <= Cost r')%Q) /\
      (forall j r', j < i -> nth_error rows j = Some r' ->
                    (Cost r < Cost r')%Q)).
Proof.
  intros Hne. destruct rows as [| r0 rows]; [contradiction |].
  unfold analyze; simpl empty; cbv iota.
  cbn [max_cost max_cost_date min_cost min_cost_date rows_of].
  unfold CostPoint in *.
  set (costs := map Cost (r0 :: rows)).
  split.
  - destruct (idxmax_spec (Cost r0) (map Cost rows)) as (Hnth & Hall & Hfirst).
    change (Cost r0 :: map Cost rows) with costs in Hnth, Hall, Hfirst.
    apply nth_error_map_inv in Hnth as (r & Hr & Hc).
    exists (idxmax costs), r.
    unfold loc_Date, CostPoint. rewrite Hr.
    split; [reflexivity |]. split; [symmetry; exact Hc |].
    split; [reflexivity |]. rewrite Hc. split.
    + intros r' Hin. apply Hall, in_map, Hin.
    + intros j r' Hj Hr'. apply (Hfirst j); [exact Hj |].
      unfold costs. rewrite nth_error_map, Hr'; reflexivity.
  - destruct (idxmin_spec (Cost r0) (map Cost rows)) as (Hnth & Hall & Hfirst).
    change (Cost r0 :: map Cost rows) with costs in Hnth, Hall, Hfirst.
    apply nth_error_map_inv in Hnth as (r & Hr & Hc).
    exists (idxmin costs), r.
    unfold loc_Date, CostPoint. rewrite Hr.
    split; [reflexivity |]. split; [symmetry; exact Hc |].
    split; [reflexivity |]. rewrite Hc. split.
    + intros r' Hin. apply Hall, in_map, Hin.
    + intros j r' Hj Hr'. apply (Hfirst j); [exact Hj |].
      unfold costs. rewrite nth_error_map, Hr'; reflexivity.
Qed.

(** X1. On a frame with rows, the maximum reported by [analyze] is the
    cost of a row that no row exceeds, its date is the date of the first
    such row in frame order, formatted as [YYYY-MM-DD]; likewise for the
    minimum.  Ties go to the earliest row of the frame. *)
Theorem analyze_extremes (rows : list CostPoint) :
  rows <> [] ->
  (exists i r,
      nth_error rows i = Some r /\
      max_cost (analyze (Table rows)) = Cost r /\
      max_cost_date (analyze (Table rows)) = Some (strftime (Date r)) /\
      (forall r', In r' rows -> (Cost r' <= Cost r)%Q) /\
      (forall j r', j < i -> nth_error rows j = Some r' ->
                    (Cost r' < Cost r)%Q)) /\
  (exists i r,
      nth_error rows i = Some r /\
      min_cost (analyze (Table rows)) = Cost r /\
      min_cost_date (analyze (Table rows)) = Some (strftime (Date r)) /\
      (forall r', In r' rows -> (Cost r <= Cost r')%Q) /\
      (forall j r', j < i -> nth_error rows j = Some r' ->
                    (Cost r < Cost r')%Q)).
Proof. apply analyze_extreme_rows. Qed.

(** ** The average and the order of the rows *)

Lemma count_S n :
  (inject_Z (Z.of_nat (S n)) == inject_Z (Z.of_nat n) + 1)%Q.
Proof.
  rewrite Nat2Z.inj_succ. unfold Z.succ. rewrite inject_Z_plus. reflexivity.
Qed.

Lemma count_pos {A} (l : list A) :
  l <> [] -> (0 < inject_Z (Z.of_nat (List.length l)))%Q.
Proof.
  intros H. destruct l as [| a l]; [contradiction |].
  change 0%Q with (inject_Z 0). rewrite <- Zlt_Qlt. simpl List.length. lia.
Qed.

Lemma sumQ_le_bound xs m :
  (forall y, In y xs -> (y <= m)%Q) ->
  (sumQ xs <= m * inject_Z (Z.of_nat (List.length xs)))%Q.
Proof.
  induction xs as [| x xs IH]; intros H.
  - simpl. rewrite Qmult_0_r. apply Qle_refl.
  - simpl sumQ. simpl List.length. rewrite count_S.
    rewrite Qmult_plus_distr_r, Qmult_1_r, Qplus_comm.
    apply Qplus_le_compat.
    + apply IH. intros y Hy; apply H; right; exact Hy.
    + apply H; left; reflexivity.
Qed.

Lemma sumQ_ge_bound xs m :
  (forall y, In y xs -> (m <= y)%Q) ->
  (m * inject_Z (Z.of_nat (List.length xs)) <= sumQ xs)%Q.
Proof.
  induction xs as [| x xs IH]; intros H.
  - simpl. rewrite Qmult_0_r. apply Qle_refl.
  - simpl sumQ. simpl List.length. rewrite count_S.
    rewrite Qmult_plus_distr_r, Qmult_1_r, Qplus_comm.
    apply Qplus_le_compat.
    + apply H; left; reflexivity.
    + apply IH. intros y Hy; apply H; right; exact Hy.
Qed.

Lemma analyze_rows r rows :
  analyze (Table (r :: rows)) =
  let costs := map Cost (r :: rows) in
  {| total_cost := Series_sum costs;
     average_cost := Series_mean costs;
     max_cost := Series_max costs;
     max_cost_date :=
       option_map strftime (loc_Date (r :: rows) (idxmax costs));
     min_cost := Series_min costs;
     min_cost_date :=
       option_map strftime (loc_Date (r :: rows) (idxmin costs)) |}.
Proof. reflexivity. Qed.

(** X2, in exact arithmetic.  On a frame with rows the average of the
    costs, taken as the exact sum over the count as [analyze] computes it,
    lies between the minimum and the maximum that [analyze] reports.  In
    binary64 the rounded mean can leave that interval, as the last section
    shows. *)
Theorem analyze_average_between (rows : list CostPoint) :
  rows <> [] ->
  (min_cost (analyze (Table rows)) <= average_cost (analyze (Table rows)))%Q /\
  (average_cost (analyze (Table rows)) <= max_cost (analyze (Table rows)))%Q.
Proof.
  intros Hne. destruct rows as [| r rows]; [contradiction |].
  rewrite analyze_rows. cbv zeta. cbn [min_cost average_cost max_cost].
  set (costs := map Cost (r :: rows)).
  assert (Hpos : (0 < inject_Z (Z.of_nat (List.length costs)))%Q)
    by (apply count_pos; discriminate).
  destruct (idxmax_spec (Cost r) (map Cost rows)) as (_ & Hmax & _).
  destruct (idxmin_spec (Cost r) (map Cost rows)) as (_ & Hmin & _).
  change (Cost r :: map Cost rows) with costs in Hmax, Hmin.
  unfold Series_mean. split.
  - apply Qle_shift_div_l; [exact Hpos |].
    rewrite Series_sum_sumQ. apply sumQ_ge_bound, Hmin.
  - apply Qle_shift_div_r; [exact Hpos |].
    rewrite Series_sum_sumQ. apply sumQ_le_bound, Hmax.
Qed.

Lemma Series_max_perm xs ys :
  Permutation xs ys -> (Series_max xs == Series_max ys)%Q.
Proof.
  intros Hp. destruct xs as [| x xs].
  - apply Permutation_nil in Hp; subst; reflexivity.
  - destruct ys as [| y ys];
      [apply Permutation_sym, Permutation_nil in Hp; discriminate |].
    destruct (idxmax_spec x xs) as (Hx & Hxall & _).
    destruct (idxmax_spec y ys) as (Hy & Hyall & _).
    apply nth_error_In in Hx, Hy.
    apply Qle_antisym.
    + apply Hyall. eapply Permutation_in; eassumption.
    + apply Hxall. eapply Permutation_in; [apply Permutation_sym |]; eassumption.
Qed.

Lemma Series_min_perm xs ys :
  Permutation xs ys -> (Series_min xs == Series_min ys)%Q.
Proof.
  intros Hp. destruct xs as [| x xs].
  - apply Permutation_nil in Hp; subst; reflexivity.
  - destruct ys as [| y ys];
      [apply Permutation_sym, Permutation_nil in Hp; discriminate |].
    destruct (idxmin_spec x xs) as (Hx & Hxall & _).
    destruct (idxmin_spec y ys) as (Hy & Hyall & _).
    apply nth_error_In in Hx, Hy.
    apply Qle_antisym.
    + apply Hxall. eapply Permutation_in; [apply Permutation_sym |]; eassumption.
    + apply Hyall. eapply Permutation_in; eassumption.
Qed.

(** X3. The four amounts of the summary do not depend on the order of the
    rows: two frames with the same rows in different orders get the same
    total, average, maximum and minimum. *)
Theorem analyze_order_irrelevant (rows rows' : list CostPoint) :
  Permutation rows rows' ->
  (total_cost (analyze (Table rows)) == total_cost (analyze (Table rows')))%Q /\
  (average_cost (analyze (Table rows))
   == average_cost (analyze (Table rows')))%Q /\
  (max_cost (analyze (Table rows)) == max_cost (analyze (Table rows')))%Q /\
  (min_cost (analyze (Table rows)) == min_cost (analyze (Table rows')))%Q.
Proof.
  intros Hp. destruct rows as [| r rows].
  - apply Permutation_nil in Hp; subst. repeat split; reflexivity.
  - destruct rows' as [| r' rows'];
      [apply Permutation_sym, Permutation_nil in Hp; discriminate |].
    rewrite !analyze_rows. cbv zeta.
    cbn [total_cost average_cost max_cost min_cost].
    assert (Hc : Permutation (map Cost (r :: rows)) (map Cost (r' :: rows')))
      by (apply Permutation_map, Hp).
    assert (Hsum : (Series_sum (map Cost (r :: rows))
                    == Series_sum (map Cost (r' :: rows')))%Q)
      by (rewrite !Series_sum_sumQ; apply sumQ_perm, Hc).
    split; [exact Hsum |]. split; [| split].
    + unfold Series_mean. rewrite Hsum.
      rewrite (Permutation_length Hc). reflexivity.
    + apply Series_max_perm, Hc.
    + apply Series_min_perm, Hc.
Qed.

(** ** Daily totals derived from the grouped series *)

Lemma filter_map_snd {A K} (f : A -> K * Q) (p : K * Q -> bool) (l : list A) :
  map snd (filter p (map f l)) = map (fun a => snd (f a)) (filter (fun a => p (f a)) l).
Proof.
  induction l as [| a l IH]; simpl; [reflexivity |].
  destruct (p (f a)); simpl; rewrite IH; reflexivity.
Qed.

Lemma total_of_cost_of_date d rows :
  total_of date_compare d (map (fun r => (TDate r, TCost r)) rows)
  = cost_of_date d rows.
Proof.
  unfold total_of, cost_of_date. rewrite filter_map_snd. reflexivity.
Qed.

(** X4. Each row of the table returned by [derive_daily_from_type] carries
    the sum of the costs of the input rows of its date. *)
Theorem derive_daily_per_date (rows : list CostByTypePoint) :
  exists out,
    derive_daily_from_type (Table rows) = Ok (Table out) /\
    forall r, In r out -> (Cost r == cost_of_date (Date r) rows)%Q.
Proof.
  unfold derive_daily_from_type; simpl.
  set (g := groupby_sum date_compare (map (fun r => (TDate r, TCost r)) rows)).
  eexists; split; [reflexivity |].
  intros r Hin.
  apply (Permutation_in _ (Permutation_sym (sort_rows_perm _ _))) in Hin.
  apply in_map_iff in Hin as ([d c] & <- & Hg); simpl.
  assert (Hnd : NoDup (map fst g)).
  { apply groupby_sum_NoDup.
    - apply date_compare_eq.
    - apply date_compare_antisym.
    - apply date_compare_lt_trans. }
  rewrite <- (total_of_unique _ date_compare_eq d c g Hnd Hg).
  unfold g. rewrite (groupby_sum_total_of _ date_compare_eq).
  rewrite total_of_cost_of_date. reflexivity.
Qed.

Lemma analyze_total_any (rows : list CostPoint) :
  (total_cost (analyze (Table rows)) == sumQ (map Cost rows))%Q.
Proof.
  destruct rows as [| r rows]; [reflexivity |].
  rewrite analyze_rows. cbv zeta. cbn [total_cost].
  apply Series_sum_sumQ.
Qed.

(** X5. When the daily totals are derived from the grouped series, the
    total cost of the summary equals the sum of the heights of the bars of
    the bar chart. *)
Theorem derived_total_matches_bars (rows : list CostByTypePoint)
  (df : DataFrame CostPoint) :
  derive_daily_from_type (Table rows) = Ok df ->
  (total_cost (analyze df) == sumQ (map snd (type_totals rows)))%Q.
Proof.
  unfold derive_daily_from_type; simpl. intros H; injection H as <-.
  rewrite analyze_total_any.
  rewrite <- (sumQ_perm _ _ (Permutation_map Cost (sort_rows_perm _ _))).
  rewrite map_Cost_mkCost, groupby_sum_total.
  unfold type_totals.
  rewrite <- (sumQ_perm _ _ (Permutation_map snd (sort_rows_perm _ _))).
  rewrite groupby_sum_total, !map_map. reflexivity.
Qed.

(** ** Normalising the grouped series *)

Lemma map_result_app {A B} (f : A -> result B) xs xs' ys ys' :
  map_result f xs = Ok ys -> map_result f xs' = Ok ys' ->
  map_result f (xs ++ xs')%list = Ok (ys ++ ys')%list.
Proof.
  revert ys; induction xs as [| x xs IH]; simpl; intros ys H H'.
  - injection H as <-; exact H'.
  - apply bind_Ok_inv in H as (y & Hy & H).
    apply bind_Ok_inv in H as (ys0 & Hys & H). injection H as <-.
    rewrite Hy; simpl. rewrite (IH _ Hys H'); reflexivity.
Qed.

Lemma for_each_concat {A B} (f : A -> result (list B)) xs yss :
  Forall2 (fun x ys => f x = Ok ys) xs yss ->
  for_each f xs = Ok (List.concat yss).
Proof.
  induction 1 as [| x ys xs yss Hx _ IH]; simpl.
  - reflexivity.
  - rewrite Hx; simpl. rewrite IH; reflexivity.
Qed.

Lemma map_result_concat {A B} (f : A -> result B) xss yss :
  Forall2 (fun xs ys => map_result f xs = Ok ys) xss yss ->
  map_result f (List.concat xss) = Ok (List.concat yss).
Proof.
  induction 1 as [| xs ys xss yss Hx _ IH]; simpl.
  - reflexivity.
  - apply map_result_app; assumption.
Qed.

Lemma entry_points_split results pss :
  Forall2 (fun e ps => entry_points e = Ok ps) results pss ->
  exists recss,
    Forall2 (fun e recs => entry_records e = Ok recs) results recss /\
    Forall2 (fun recs ps => map_result type_point recs = Ok ps) recss pss.
Proof.
  induction 1 as [| e ps results pss He _ (recss & H1 & H2)].
  - exists []; split; constructor.
  - unfold entry_points in He.
    apply bind_Ok_inv in He as (recs & Hrecs & Hps).
    exists (recs :: recss); split; constructor; assumption.
Qed.

(** X6. A grouped series whose entries are well formed, with at least one
    group in all, is normalised by [df_by_type] to exactly the rows of its
    groups, one row per group, none lost and none repeated, in ascending
    order of date. *)
Theorem df_by_type_rows (results : list json)
  (pss : list (list CostByTypePoint)) :
  Forall2 (fun e ps => entry_points e = Ok ps) results pss ->
  List.concat pss <> [] ->
  exists out,
    df_by_type results = Ok (Table out) /\
    Permutation (List.concat pss) out /\
    ascending_by TDate out.
Proof.
  intros Hwf Hne.
  apply entry_points_split in Hwf as (recss & Hrecs & Hpts).
  apply for_each_concat in Hrecs. apply map_result_concat in Hpts.
  assert (Hrne : List.concat recss <> []).
  { apply length_nonempty.
    rewrite <- (map_result_length _ _ _ Hpts).
    apply length_nonempty, Hne. }
  exists (sort_rows (fun a b => date_leb (TDate a) (TDate b)) (List.concat pss)).
  split; [| split].
  - unfold df_by_type, type_to_datetime.
    rewrite Hrecs; cbn [bind].
    rewrite (pd_DataFrame_nonempty _ Hrne); cbn [column bind].
    unfold type_point, CostByTypePoint in *. rewrite Hpts; reflexivity.
  - apply sort_rows_perm.
  - apply sort_by_date_ascending.
Qed.

(** ** Dates read and written *)

Ltac div10 n :=
  pose proof (Nat.div_mod_eq n 10); pose proof (Nat.mod_upper_bound n 10).

Lemma digit_of_bound c n : digit_of c = Some n -> n <= 9.
Proof.
  unfold digit_of.
  destruct ((48 <=? nat_of_ascii c) && (nat_of_ascii c <=? 57))%nat eqn:H;
    [| discriminate].
  apply andb_prop in H as [H1 H2].
  apply Nat.leb_le in H1, H2. intros E; injection E as <-. lia.
Qed.

Lemma digit_char_of c n : digit_of c = Some n -> digit_char n = c.
Proof.
  intros H. pose proof (digit_of_bound _ _ H) as Hb.
  unfold digit_of in H.
  destruct ((48 <=? nat_of_ascii c) && (nat_of_ascii c <=? 57))%nat eqn:E;
    [| discriminate].
  apply andb_prop in E as [H1 H2]. apply Nat.leb_le in H1, H2.
  injection H as <-. unfold digit_char.
  rewrite Nat.mod_small by lia.
  replace (48 + (nat_of_ascii c - 48)) with (nat_of_ascii c) by lia.
  apply ascii_nat_embedding.
Qed.

Lemma digit_char_mod n : digit_char (n mod 10) = digit_char n.
Proof. unfold digit_char. rewrite Nat.Div0.mod_mod. reflexivity. Qed.

Lemma pad2_digits2 a b n :
  digits2 a b = Some n -> pad2 n = String a (String b EmptyString) /\ n < 100.
Proof.
  unfold digits2.
  destruct (digit_of a) as [x |] eqn:Ha; [| discriminate].
  destruct (digit_of b) as [y |] eqn:Hb; [| discriminate].
  intros E. assert (Hn : n = 10 * x + y) by congruence. clear E.
  pose proof (digit_of_bound _ _ Ha). pose proof (digit_of_bound _ _ Hb).
  split; [| lia]. unfold pad2.
  replace (n / 10) with x by (div10 n; lia).
  rewrite <- (digit_char_mod n).
  replace (n mod 10) with y by (div10 n; lia).
  rewrite (digit_char_of _ _ Ha), (digit_char_of _ _ Hb). reflexivity.
Qed.

Lemma pad2_century a b : b < 100 -> pad2 ((100 * a + b) / 100) = pad2 a.
Proof.
  intros H. f_equal.
  pose proof (Nat.div_mod_eq (100 * a + b) 100).
  pose proof (Nat.mod_upper_bound (100 * a + b) 100). lia.
Qed.

Lemma pad2_year a b : pad2 (100 * a + b) = pad2 b.
Proof.
  unfold pad2.
  rewrite <- (digit_char_mod ((100 * a + b) / 10)), <- (digit_char_mod (b / 10)).
  rewrite <- (digit_char_mod (100 * a + b)), <- (digit_char_mod b).
  replace (((100 * a + b) / 10) mod 10) with ((b / 10) mod 10).
  - replace ((100 * a + b) mod 10) with (b mod 10); [reflexivity |].
    div10 (100 * a + b); div10 b; lia.
  - replace ((100 * a + b) / 10) with (10 * a + b / 10)
      by (div10 (100 * a + b); div10 b; lia).
    div10 (10 * a + b / 10); div10 (b / 10); lia.
Qed.

Lemma dash_char c :
  match c with
  | "-"%char => True
  | _ => False
  end -> c = "-"%char.
Proof.
  destruct c as [[] [] [] [] [] [] [] []]; simpl; intros H;
    solve [reflexivity | contradiction].
Qed.

(** A date string that is read is written back as it was. *)
Lemma strftime_parse s d : parse_iso_date s = Some d -> strftime d = s.
Proof.
  destruct s as [| y1 [| y2 [| y3 [| y4 [| c1 s]]]]]; try discriminate.
  intros H.
  assert (Hc1 : c1 = "-"%char).
  { apply dash_char.
    destruct c1 as [[] [] [] [] [] [] [] []]; simpl in H;
      solve [exact I | discriminate]. }
  subst c1.
  destruct s as [| m1 [| m2 [| c2 s]]]; try discriminate.
  assert (Hc2 : c2 = "-"%char).
  { apply dash_char.
    destruct c2 as [[] [] [] [] [] [] [] []]; simpl in H;
      solve [exact I | discriminate]. }
  subst c2.
  destruct s as [| d1 [| d2 [| c3 s]]]; try discriminate.
  cbn [parse_iso_date] in H.
  destruct (digits2 y1 y2) as [yh |] eqn:Hyh; [| discriminate].
  destruct (digits2 y3 y4) as [yl |] eqn:Hyl; [| discriminate].
  destruct (digits2 m1 m2) as [m |] eqn:Hm; [| discriminate].
  destruct (digits2 d1 d2) as [dd |] eqn:Hd; [| discriminate].
  destruct (valid_date _); [| discriminate].
  assert (Hdate : d = mkDate (100 * yh + yl) m dd) by congruence.
  clear H. rewrite Hdate.
  apply pad2_digits2 in Hyh as [Hyh _], Hyl as [Hyl Hlt],
      Hm as [Hm _], Hd as [Hd _].
  unfold strftime; cbn [year month day].
  rewrite (pad2_century _ _ Hlt), pad2_year, Hyh, Hyl, Hm, Hd.
  reflexivity.
Qed.

Lemma Forall2_In_r {A B} (R : A -> B -> Prop) xs ys y :
  Forall2 R xs ys -> In y ys -> exists x, In x xs /\ R x y.
Proof.
  induction 1 as [| x y' xs ys Hxy _ IH]; simpl; [contradiction |].
  intros [<- | Hin].
  - exists x; auto.
  - destruct (IH Hin) as (x' & Hx' & HR). exists x'; auto.
Qed.

Lemma df_daily_total_inv results df :
  df_daily_total results = Ok df ->
  exists recs rows,
    map_result daily_total_record results = Ok recs /\
    map_result (fun r => d <- to_datetime (Date r) ;; Ok (mkCost d (Cost r)))
      recs = Ok rows /\
    rows <> [] /\
    df = Table (sort_rows (fun a b => date_leb (Date a) (Date b)) rows).
Proof.
  unfold df_daily_total, daily_to_datetime. intros H.
  apply bind_Ok_inv in H as (recs & Hrecs & H).
  apply bind_Ok_inv in H as (df0 & Hdf0 & H).
  destruct recs as [| rec recs]; [discriminate |].
  cbn [pd_DataFrame column bind] in Hdf0.
  apply bind_Ok_inv in Hdf0 as (rows & Hrows & Hdf0). injection Hdf0 as <-.
  injection H as <-.
  exists (rec :: recs), rows. repeat split; try assumption.
  apply map_result_length in Hrows. destruct rows; [discriminate | discriminate].
Qed.

Lemma daily_row_origin results recs rows r :
  map_result daily_total_record results = Ok recs ->
  map_result (fun r => d <- to_datetime (Date r) ;; Ok (mkCost d (Cost r)))
    recs = Ok rows ->
  In r rows ->
  exists e s amount,
    In e results /\
    get_path start_path e = Ok (JStr s) /\
    get_path total_amount_path e = Ok amount /\
    float amount = Ok (Cost r) /\
    strftime (Date r) = s.
Proof.
  intros Hrecs Hrows Hin.
  apply map_result_Forall2 in Hrecs, Hrows.
  destruct (Forall2_In_r _ _ _ _ Hrows Hin) as (rec & Hrec & Hconv).
  destruct (Forall2_In_r _ _ _ _ Hrecs Hrec) as (e & He & Hrecord).
  rewrite daily_total_record_paths in Hrecord.
  apply bind_Ok_inv in Hrecord as (start & Hstart & Hrecord).
  apply bind_Ok_inv in Hrecord as (amount & Hamount & Hrecord).
  apply bind_Ok_inv in Hrecord as (cost & Hcost & Hrecord).
  injection Hrecord as <-. cbn [Date Cost] in Hconv.
  apply bind_Ok_inv in Hconv as (d & Hd & Hconv). injection Hconv as <-.
  unfold to_datetime in Hd. destruct start as [| | | s | |]; try discriminate.
  destruct (parse_iso_date s) as [d' |] eqn:Hparse; [| discriminate].
  injection Hd as ->.
  exists e, s, amount. cbn [Date Cost].
  repeat split; try assumption.
  apply strftime_parse, Hparse.
Qed.

(** X7. For a total series whose period starts are all written
    [YYYY-MM-DD], whenever [df_daily_total] returns, the extremes of the
    summary come from the entries as they are written: the maximum is
    [float] of the amount of an entry and the date shown with it is the
    period start of that same entry, character for character; likewise for
    the minimum. *)
Theorem summary_extremes_are_entries (results : list json)
  (df : DataFrame CostPoint) :
  Forall iso_start results ->
  df_daily_total results = Ok df ->
  (exists e s amount,
      In e results /\
      get_path start_path e = Ok (JStr s) /\
      get_path total_amount_path e = Ok amount /\
      float amount = Ok (max_cost (analyze df)) /\
      max_cost_date (analyze df) = Some s) /\
  (exists e s amount,
      In e results /\
      get_path start_path e = Ok (JStr s) /\
      get_path total_amount_path e = Ok amount /\
      float amount = Ok (min_cost (analyze df)) /\
      min_cost_date (analyze df) = Some s).
Proof.
  intros _ H.
  apply df_daily_total_inv in H as (recs & rows & Hrecs & Hrows & Hne & ->).
  unfold CostPoint in *.
  set (sorted := sort_rows (fun a b => date_leb (Date a) (Date b)) rows).
  assert (Hperm : Permutation rows sorted) by apply sort_rows_perm.
  assert (Hsne : sorted <> []).
  { intros E. rewrite E in Hperm.
    apply Permutation_sym, Permutation_nil in Hperm. contradiction. }
  destruct (analyze_extreme_rows sorted Hsne)
    as ((i & r & Hr & Hmax & Hmaxd & _) & (k & r' & Hr' & Hmin & Hmind & _)).
  unfold CostPoint in *.
  split.
  - apply nth_error_In in Hr.
    apply (Permutation_in _ (Permutation_sym Hperm)) in Hr.
    destruct (daily_row_origin _ _ _ _ Hrecs Hrows Hr)
      as (e & s & amount & He & Hs & Ha & Hf & Hfmt).
    exists e, s, amount. rewrite Hmax, Hmaxd, Hfmt. auto.
  - apply nth_error_In in Hr'.
    apply (Permutation_in _ (Permutation_sym Hperm)) in Hr'.
    destruct (daily_row_origin _ _ _ _ Hrecs Hrows Hr')
      as (e & s & amount & He & Hs & Ha & Hf & Hfmt).
    exists e, s, amount. rewrite Hmin, Hmind, Hfmt. auto.
Qed.

(** ** Runs of the driver *)

Lemma sort_values_Date_inv {R} (date : R -> Timestamp) df df' :
  sort_values_Date date df = Ok df' ->
  exists rows,
    df = Table rows /\
    df' = Table (sort_rows (fun a b => date_leb (date a) (date b)) rows).
Proof.
  destruct df as [| rows]; simpl; [discriminate |].
  intros H; injection H as <-. exists rows; auto.
Qed.

Lemma df_by_type_Table results df :
  df_by_type results = Ok df -> exists rows, df = Table rows.
Proof.
  unfold df_by_type. intros H.
  apply bind_Ok_inv in H as (recs & _ & H).
  apply bind_Ok_inv in H as (df0 & _ & H).
  apply sort_values_Date_inv in H as (rows & _ & ->). eauto.
Qed.

Lemma daily_frame_sorted in_dir fs df :
  daily_source in_dir fs df ->
  exists rows, df = Table rows /\ ascending_by Date rows.
Proof.
  unfold daily_source.
  destruct (fs (daily_path in_dir)) as [c |].
  - intros (daily & _ & H). unfold df_daily_total in H.
    apply bind_Ok_inv in H as (recs & _ & H).
    apply bind_Ok_inv in H as (df0 & _ & H).
    apply sort_values_Date_inv in H as (rows & _ & ->).
    eexists; split; [reflexivity | apply sort_by_date_ascending].
  - intros (results & df_type & _ & _ & H). unfold derive_daily_from_type in H.
    apply bind_Ok_inv in H as (rows0 & _ & H).
    apply sort_values_Date_inv in H as (rows & _ & ->).
    eexists; split; [reflexivity | apply sort_by_date_ascending].
Qed.


(** A run on given inputs: [main] returns the state with the three
    artifacts written. *)
Lemma main_Ok_intro in_dir out_dir now fs results df_type df_daily :
  fs (type_path in_dir) = Some (JsonFile results) ->
  df_by_type results = Ok df_type ->
  daily_source in_dir fs df_daily ->
  main in_dir out_dir now fs = Ok (run_result out_dir now fs df_type df_daily).
Proof.
  intros Htype Hdf Hsrc.
  destruct (daily_frame_sorted _ _ _ Hsrc) as (rows & -> & _).
  destruct (df_by_type_Table _ _ Hdf) as (trows & ->).
  unfold main. fold (type_path in_dir) (daily_path in_dir)
    (report_path out_dir).
  unfold path_exists, load_json. rewrite Htype. cbn [negb bind].
  rewrite Hdf. cbn [bind].
  unfold daily_source in Hsrc.
  destruct (fs (daily_path in_dir)) as [c |].
  - destruct Hsrc as (daily & -> & Hd). cbn [bind]. rewrite Hd. reflexivity.
  - destruct Hsrc as (results' & df_type' & Ht' & Hdf' & Hd).
    rewrite Htype in Ht'. injection Ht' as <-.
    rewrite Hdf in Hdf'. injection Hdf' as <-.
    rewrite Hd. reflexivity.
Qed.


(** ** What a run writes *)

Lemma run_result_lookup out_dir now fs df_type df_daily p :
  run_result out_dir now fs df_type df_daily p =
  if String.eqb p (report_path out_dir)
  then Some (TextFile (report_text out_dir now (analyze df_daily)))
  else if String.eqb p (bar_path out_dir)
  then Some (BarPlot (type_totals (rows_of df_type)))
  else if String.eqb p (line_path out_dir)
  then Some (LinePlot (line_points df_daily))
  else fs p.
Proof.
  unfold run_result. rewrite write_html_unfold.
  unfold open_w, write_file, report_text.
  destruct (String.eqb p (report_path out_dir)); reflexivity.
Qed.

Lemma last_char_app a b :
  b <> "" -> last_char (a ++ b) = last_char b.
Proof.
  intros Hb. induction a as [| c a IH]; simpl; [reflexivity |].
  destruct (a ++ b) eqn:E; [| exact IH].
  destruct a; simpl in E; [contradiction | discriminate].
Qed.

Lemma last_char_path_join a b :
  b <> "" -> last_char (path_join a b) = last_char b.
Proof.
  intros Hb. unfold path_join.
  destruct (String.eqb a ""); [reflexivity |].
  destruct (ends_with_slash a).
  - apply last_char_app, Hb.
  - rewrite last_char_app by discriminate.
    apply (last_char_app "/"), Hb.
Qed.

Lemma inputs_not_outputs in_dir out_dir :
  ~ In (type_path in_dir) (output_paths out_dir) /\
  ~ In (daily_path in_dir) (output_paths out_dir).
Proof.
  assert (Ht : last_char (type_path in_dir) = Some "n"%char)
    by (unfold type_path; rewrite last_char_path_join; [reflexivity | discriminate]).
  assert (Hd : last_char (daily_path in_dir) = Some "n"%char)
    by (unfold daily_path; rewrite last_char_path_join; [reflexivity | discriminate]).
  assert (Hl : last_char (line_path out_dir) = Some "g"%char)
    by (unfold line_path; rewrite last_char_path_join; [reflexivity | discriminate]).
  assert (Hb : last_char (bar_path out_dir) = Some "g"%char)
    by (unfold bar_path; rewrite last_char_path_join; [reflexivity | discriminate]).
  assert (Hr : last_char (report_path out_dir) = Some "l"%char)
    by (unfold report_path; rewrite last_char_path_join; [reflexivity | discriminate]).
  unfold output_paths; simpl.
  split; intros [E | [E | [E | []]]]; rewrite <- E in *; congruence.
Qed.

Lemma run_result_other out_dir now fs df_type df_daily p :
  ~ In p (output_paths out_dir) ->
  run_result out_dir now fs df_type df_daily p = fs p.
Proof.
  intros Hp. rewrite run_result_lookup.
  unfold output_paths in Hp; simpl in Hp.
  destruct (String.eqb_spec p (report_path out_dir)) as [-> | _];
    [exfalso; apply Hp; auto |].
  destruct (String.eqb_spec p (bar_path out_dir)) as [-> | _];
    [exfalso; apply Hp; auto |].
  destruct (String.eqb_spec p (line_path out_dir)) as [-> | _];
    [exfalso; apply Hp; auto |].
  reflexivity.
Qed.

(** X10. A successful run changes no file but the line chart, the bar
    chart and the report; in particular it never overwrites the two input
    files, whatever the input and output directories are, the same
    directory included. *)
Theorem main_touches_only_outputs (in_dir out_dir now : string)
  (fs fs' : filesystem) :
  main in_dir out_dir now fs = Ok fs' ->
  (forall p, ~ In p (output_paths out_dir) -> fs' p = fs p) /\
  fs' (type_path in_dir) = fs (type_path in_dir) /\
  fs' (daily_path in_dir) = fs (daily_path in_dir).
Proof.
  intros H.
  apply main_Ok_inv in H as (results & df_type & df_daily & _ & _ & _ & _ & ->).
  fold (run_result out_dir now fs df_type df_daily).
  destruct (inputs_not_outputs in_dir out_dir) as [Ht Hd].
  split; [| split].
  - intros p Hp. apply run_result_other, Hp.
  - apply run_result_other, Ht.
  - apply run_result_other, Hd.
Qed.

(** X11. Running [main] again on the files a successful run left, with the
    same directories and clock, succeeds and leaves every file as the
    first run left it. *)
Theorem main_rerun_same (in_dir out_dir now : string) (fs fs' : filesystem) :
  main in_dir out_dir now fs = Ok fs' ->
  exists fs'',
    main in_dir out_dir now fs' = Ok fs'' /\ forall p, fs'' p = fs' p.
Proof.
  intros H.
  apply main_Ok_inv in H
    as (results & df_type & df_daily & Ht & Hdf & Hsrc & _ & ->).
  fold (run_result out_dir now fs df_type df_daily).
  set (fs' := run_result out_dir now fs df_type df_daily).
  destruct (inputs_not_outputs in_dir out_dir) as [Hnt Hnd].
  assert (Ht' : fs' (type_path in_dir) = fs (type_path in_dir))
    by (apply run_result_other, Hnt).
  assert (Hd' : fs' (daily_path in_dir) = fs (daily_path in_dir))
    by (apply run_result_other, Hnd).
  assert (Hsrc' : daily_source in_dir fs' df_daily).
  { unfold daily_source in *. rewrite Hd', Ht'. exact Hsrc. }
  exists (run_result out_dir now fs' df_type df_daily). split.
  - apply main_Ok_intro with (results := results); [congruence | assumption ..].
  - intros p. rewrite run_result_lookup. unfold fs'.
    rewrite run_result_lookup.
    destruct (String.eqb p (report_path out_dir)); [reflexivity |].
    destruct (String.eqb p (bar_path out_dir)); [reflexivity |].
    destruct (String.eqb p (line_path out_dir)); reflexivity.
Qed.

(** ** References to the charts *)

Lemma append_assoc (a b c : string) : (a ++ b) ++ c = a ++ b ++ c.
Proof. induction a as [| x a IH]; simpl; [reflexivity | rewrite IH; reflexivity]. Qed.

Lemma strip_prefix_app p s : strip_prefix p (p ++ s) = Some s.
Proof.
  induction p as [| c p IH]; simpl.
  - destruct s; reflexivity.
  - rewrite Ascii.eqb_refl. exact IH.
Qed.

Lemma dirname_aux_app a name :
  dirname_aux name = None -> dirname_aux (a ++ "/" ++ name) = Some a.
Proof.
  intros H. induction a as [| c a IH].
  - simpl. rewrite H. reflexivity.
  - change (String c a ++ "/" ++ name) with (String c (a ++ "/" ++ name)).
    cbn [dirname_aux]. rewrite IH. reflexivity.
Qed.

Lemma ends_with_slash_inv a :
  ends_with_slash a = true -> exists a', a = a' ++ "/".
Proof.
  induction a as [| c a IH]; simpl; [discriminate |].
  destruct a as [| c' a].
  - intros H. apply Ascii.eqb_eq in H. subst. exists ""; reflexivity.
  - intros H. destruct (IH H) as (a' & E). exists (String c a').
    simpl. rewrite <- E. reflexivity.
Qed.

Lemma ends_with_slash_app a b :
  b <> "" -> ends_with_slash (a ++ b) = ends_with_slash b.
Proof.
  intros Hb. induction a as [| c a IH]; simpl; [reflexivity |].
  destruct (a ++ b) eqn:E; [| exact IH].
  destruct a; simpl in E; [contradiction | discriminate].
Qed.

(** Joining below a directory that is not empty: a base and a slash. *)
Lemma path_join_base a :
  a <> "" ->
  exists base,
    (forall b, path_join a b = base ++ "/" ++ b) /\
    (base = "" -> a = "/").
Proof.
  intros Ha. unfold path_join.
  destruct (String.eqb_spec a ""); [contradiction |].
  destruct (ends_with_slash a) eqn:E.
  - apply ends_with_slash_inv in E as (a' & ->).
    exists a'. split; [intros b; apply append_assoc | intros ->; reflexivity].
  - exists a. split; [reflexivity | intros ->; contradiction].
Qed.

Lemma chart_reference out_dir name :
  out_dir <> "/" -> name <> "" ->
  relpath (path_join (path_join out_dir "images") name)
    (dirname (report_path out_dir))
  = "images/" ++ name.
Proof.
  intros Hroot Hname. unfold report_path.
  destruct (String.eqb_spec out_dir "") as [-> | Hne].
  - reflexivity.
  - destruct (path_join_base out_dir Hne) as (base & Hjoin & Hbase).
    rewrite !Hjoin.
    assert (Himg : path_join (base ++ "/" ++ "images") name
                   = (base ++ "/" ++ "images") ++ "/" ++ name).
    { unfold path_join.
      destruct (String.eqb_spec (base ++ "/" ++ "images") "") as [E | _].
      - destruct base; discriminate.
      - rewrite ends_with_slash_app by discriminate. reflexivity. }
    rewrite Himg. unfold dirname.
    rewrite dirname_aux_app by reflexivity.
    unfold relpath.
    destruct (String.eqb_spec base "") as [E | _]; [elim Hroot; auto |].
    replace ((base ++ "/" ++ "images") ++ "/" ++ name)
      with ((base ++ "/") ++ "images/" ++ name)
      by (rewrite !append_assoc; reflexivity).
    rewrite strip_prefix_app. reflexivity.
Qed.

Lemma contains_app_r sub s t : contains sub t -> contains sub (s ++ t).
Proof.
  intros (a & b & ->). exists (s ++ a), b. rewrite append_assoc. reflexivity.
Qed.

Lemma contains_img_src S ref rest :
  S = substring 0 (String.length S - 9) S ++ "<img src=" ->
  contains (img_src ref) (S ++ dq ++ ref ++ dq ++ rest).
Proof.
  set (a := substring 0 (String.length S - 9) S). intros H.
  exists a, rest. unfold img_src. rewrite H.
  rewrite !append_assoc. reflexivity.
Qed.

(** The document holds an image tag for each of its two references. *)
Lemma html_document_images analysis line_rel bar_rel now :
  contains (img_src line_rel) (html_document analysis line_rel bar_rel now) /\
  contains (img_src bar_rel) (html_document analysis line_rel bar_rel now).
Proof.
  unfold html_document. split;
    repeat first [ apply contains_img_src; reflexivity
                 | apply contains_app_r ].
Qed.

(** X12. The report refers to its two charts by the paths
    [images/cost_over_time.png] and [images/cost_per_instance_type.png],
    relative to its own directory: these are the paths [write_html]
    computes, and the text it writes holds an image tag with each of them,
    for every output directory but the root ["/"], which the model of
    [os.path.relpath] leaves out.  The text of the report does not depend
    on where it is written. *)
Theorem report_references_relative (out_dir now : string)
  (analysis : Summary) :
  out_dir <> "/" ->
  relpath (line_path out_dir) (dirname (report_path out_dir))
  = "images/cost_over_time.png" /\
  relpath (bar_path out_dir) (dirname (report_path out_dir))
  = "images/cost_per_instance_type.png" /\
  contains (img_src "images/cost_over_time.png")
    (report_text out_dir now analysis) /\
  contains (img_src "images/cost_per_instance_type.png")
    (report_text out_dir now analysis) /\
  report_text out_dir now analysis
  = html_document analysis "images/cost_over_time.png"
      "images/cost_per_instance_type.png" now.
Proof.
  intros H.
  assert (Hl : relpath (line_path out_dir) (dirname (report_path out_dir))
               = "images/cost_over_time.png")
    by (unfold line_path; rewrite chart_reference by (exact H || discriminate);
        reflexivity).
  assert (Hb : relpath (bar_path out_dir) (dirname (report_path out_dir))
               = "images/cost_per_instance_type.png")
    by (unfold bar_path; rewrite chart_reference by (exact H || discriminate);
        reflexivity).
  unfold report_text. rewrite Hl, Hb.
  destruct (html_document_images analysis "images/cost_over_time.png"
              "images/cost_per_instance_type.png" now) as [H1 H2].
  repeat split; assumption || reflexivity.
Qed.

(** ** The exceptions of a run *)

Lemma raises_only_Ok {A} P (a : A) : raises_only P (Ok a).
Proof. intros e H; discriminate. Qed.

Lemma raises_only_Unmodelled {A} P w : raises_only P (@Unmodelled A w).
Proof. intros e H; discriminate. Qed.

Lemma raises_only_Raise {A} (P : exn -> Prop) e :
  P e -> raises_only P (@Raise A e).
Proof. intros HP e' H; injection H as <-; exact HP. Qed.

Lemma raises_only_bind {A B} P (c : result A) (k : A -> result B) :
  raises_only P c -> (forall a, raises_only P (k a)) ->
  raises_only P (bind c k).
Proof.
  intros Hc Hk e. destruct c as [a | e' | w]; simpl.
  - apply Hk.
  - intros H; injection H as <-. apply Hc; reflexivity.
  - discriminate.
Qed.

Lemma raises_only_map_result {A B} P (f : A -> result B) xs :
  (forall x, raises_only P (f x)) -> raises_only P (map_result f xs).
Proof.
  intros Hf. induction xs as [| x xs IH]; simpl.
  - apply raises_only_Ok.
  - apply raises_only_bind; [apply Hf | intros y].
    apply raises_only_bind; [exact IH | intros ys]. apply raises_only_Ok.
Qed.

Lemma raises_only_for_each {A B} P (f : A -> result (list B)) xs :
  (forall x, raises_only P (f x)) -> raises_only P (for_each f xs).
Proof.
  intros Hf. induction xs as [| x xs IH]; simpl.
  - apply raises_only_Ok.
  - apply raises_only_bind; [apply Hf | intros y].
    apply raises_only_bind; [exact IH | intros ys]. apply raises_only_Ok.
Qed.

Lemma getitem_data_error v k : raises_only data_error (getitem v k).
Proof.
  intros e. destruct v; simpl; try (intros H; injection H as <-; exact I).
  destruct (dict_get k fields); [discriminate |].
  intros H; injection H as <-; exact I.
Qed.

Lemma dict_get_method_data_error v k :
  raises_only data_error (dict_get_method v k).
Proof.
  intros e. destruct v; simpl; try (intros H; injection H as <-; exact I).
  discriminate.
Qed.

Lemma getitem0_data_error v : raises_only data_error (getitem0 v).
Proof.
  intros e. destruct v as [| | | s | items |]; simpl;
    try (intros H; injection H as <-; exact I).
  - destruct (characters "" s); [| discriminate].
    intros H; injection H as <-; exact I.
  - destruct items; [| discriminate].
    intros H; injection H as <-; exact I.
Qed.

Lemma iterate_data_error v : raises_only data_error (iterate v).
Proof.
  intros e. destruct v; simpl; try discriminate;
    intros H; injection H as <-; exact I.
Qed.

Lemma float_data_error v : raises_only data_error (float v).
Proof.
  intros e. destruct v; simpl; try discriminate;
    try (intros H; injection H as <-; exact I).
  destruct (parse_decimal s); discriminate.
Qed.

Lemma to_datetime_no_raise v : forall P, raises_only P (to_datetime v).
Proof.
  intros P e. destruct v; simpl; try discriminate.
  destruct (parse_iso_date s); discriminate.
Qed.

Lemma as_label_no_raise v : forall P, raises_only P (as_label v).
Proof. intros P e. destruct v; simpl; discriminate. Qed.

Lemma column_data_error {R} col (df : DataFrame R) :
  raises_only data_error (column col df).
Proof.
  intros e. destruct df; simpl; [| discriminate].
  intros H; injection H as <-; exact I.
Qed.

(** Opens a chain of binds whose steps raise data errors only. *)
Ltac data_errors :=
  repeat first
    [ apply raises_only_Ok
    | apply raises_only_bind; [| intros ?]
    | apply getitem_data_error
    | apply dict_get_method_data_error
    | apply getitem0_data_error
    | apply iterate_data_error
    | apply float_data_error
    | apply to_datetime_no_raise
    | apply as_label_no_raise
    | apply column_data_error ].

Lemma daily_total_record_data_error e :
  raises_only data_error (daily_total_record e).
Proof. unfold daily_total_record. data_errors. Qed.

Lemma group_record_data_error date g :
  raises_only data_error (group_record date g).
Proof.
  unfold group_record. data_errors.
  destruct (match a with Some v => truthy v | None => false end); data_errors.
Qed.

Lemma entry_records_data_error e : raises_only data_error (entry_records e).
Proof.
  unfold entry_records. data_errors.
  - destruct a1; data_errors.
  - apply raises_only_map_result. intros g; apply group_record_data_error.
Qed.

Lemma sort_values_Date_data_error {R} (date : R -> Timestamp) df :
  raises_only data_error (sort_values_Date date df).
Proof. unfold sort_values_Date. data_errors. Qed.

Lemma df_daily_total_data_error results :
  raises_only data_error (df_daily_total results).
Proof.
  unfold df_daily_total, daily_to_datetime.
  apply raises_only_bind;
    [apply raises_only_map_result, daily_total_record_data_error | intros recs].
  apply raises_only_bind; [| intros df; apply sort_values_Date_data_error].
  apply raises_only_bind; [apply column_data_error | intros rows].
  apply raises_only_bind; [| intros rows'; apply raises_only_Ok].
  apply raises_only_map_result. intros r. data_errors.
Qed.

Lemma df_by_type_data_error results :
  raises_only data_error (df_by_type results).
Proof.
  unfold df_by_type, type_to_datetime.
  apply raises_only_bind;
    [apply raises_only_for_each, entry_records_data_error | intros recs].
  apply raises_only_bind; [| intros df; apply sort_values_Date_data_error].
  apply raises_only_bind; [apply column_data_error | intros rows].
  apply raises_only_bind; [| intros rows'; apply raises_only_Ok].
  apply raises_only_map_result. intros r. data_errors.
Qed.

Lemma derive_daily_data_error df_type :
  raises_only data_error (derive_daily_from_type df_type).
Proof.
  unfold derive_daily_from_type.
  apply raises_only_bind; [apply column_data_error | intros rows].
  apply sort_values_Date_data_error.
Qed.

(** With the grouped-series file in place, a run can only end with an
    exception of the input data. *)
Lemma main_data_error in_dir out_dir now fs c :
  fs (type_path in_dir) = Some c ->
  raises_only data_error (main in_dir out_dir now fs).
Proof.
  intros Ht. unfold main.
  fold (type_path in_dir) (daily_path in_dir) (report_path out_dir).
  unfold path_exists, load_json. rewrite Ht. cbn [negb].
  apply raises_only_bind.
  { destruct c; first [apply raises_only_Ok | apply raises_only_Unmodelled]. }
  intros results.
  apply raises_only_bind; [apply df_by_type_data_error | intros df_type].
  apply raises_only_bind.
  { destruct (fs (daily_path in_dir)) as [d |].
    - apply raises_only_bind; [| intros daily; apply df_daily_total_data_error].
      destruct d; first [apply raises_only_Ok | apply raises_only_Unmodelled].
    - apply derive_daily_data_error. }
  intros df_daily.
  apply raises_only_bind.
  { unfold plot_daily. data_errors. }
  intros p1.
  apply raises_only_bind.
  { unfold plot_by_type. data_errors. }
  intros p2. apply raises_only_Ok.
Qed.

(** X13. [main] exits with [SystemExit] exactly when the grouped-series
    file is missing, and the message names the missing path; it never
    ends with [FileNotFoundError], since it opens no file it has not found.
    A missing total-series file is no error. *)
Theorem main_exit_iff (in_dir out_dir now : string) (fs : filesystem) :
  (forall msg,
      main in_dir out_dir now fs = Raise (SystemExit msg) <->
      fs (type_path in_dir) = None /\
      msg = "Falta archivo requerido: " ++ type_path in_dir) /\
  (forall path, main in_dir out_dir now fs <> Raise (FileNotFoundError path)).
Proof.
  destruct (fs (type_path in_dir)) as [c |] eqn:Ht.
  - pose proof (main_data_error in_dir out_dir now fs c Ht) as Hd.
    split.
    + intros msg. split.
      * intros H. apply Hd in H. contradiction.
      * intros [H _]. discriminate.
    + intros path H. apply Hd in H. contradiction.
  - assert (Hm : main in_dir out_dir now fs
                 = Raise (SystemExit ("Falta archivo requerido: "
                                      ++ type_path in_dir))).
    { unfold main. fold (type_path in_dir).
      unfold path_exists. rewrite Ht. reflexivity. }
    rewrite Hm. split.
    + intros msg. split.
      * intros H. injection H as <-. auto.
      * intros [_ ->]. reflexivity.
    + intros path H. discriminate.
Qed.

(** ** Rows and groups *)

Lemma entry_records_count e recs :
  entry_records e = Ok recs ->
  List.length recs = List.length (groups_of e).
Proof.
  rewrite entry_records_paths. intros H.
  apply bind_Ok_inv in H as (date & _ & H).
  apply bind_Ok_inv in H as (groups & Hg & H).
  apply bind_Ok_inv in H as (gs & Hgs & H).
  apply map_result_length in H. rewrite H.
  destruct e; try discriminate. simpl in Hg. injection Hg as <-.
  unfold groups_of. destruct (dict_get "Groups" fields) as [v |].
  - rewrite Hgs. reflexivity.
  - injection Hgs as <-. reflexivity.
Qed.

Lemma for_each_count {A B} (f : A -> result (list B)) (size : A -> nat)
  xs ys :
  (forall x y, f x = Ok y -> List.length y = size x) ->
  for_each f xs = Ok ys ->
  List.length ys = List.length (List.concat (map (fun x => repeat tt (size x)) xs)).
Proof.
  intros Hf. revert ys; induction xs as [| x xs IH]; simpl; intros ys H.
  - injection H as <-; reflexivity.
  - apply bind_Ok_inv in H as (y & Hy & H).
    apply bind_Ok_inv in H as (zs & Hzs & H). injection H as <-.
    rewrite !length_app, repeat_length, (Hf _ _ Hy), (IH _ Hzs). reflexivity.
Qed.

Lemma concat_groups_length results :
  List.length (List.concat (map groups_of results))
  = List.length
      (List.concat
         (map (fun e => repeat tt (List.length (groups_of e))) results)).
Proof.
  induction results as [| e results IH]; simpl; [reflexivity |].
  rewrite !length_app, repeat_length, IH. reflexivity.
Qed.

(** X14. Whenever a normaliser returns, it returns a table with at least
    one row, in ascending order of date, with one row per entry for the
    total series and one row per group, over all entries, for the grouped
    series. *)
Theorem normalisers_row_counts (results : list json) :
  (forall df,
      df_daily_total results = Ok df ->
      exists rows,
        df = Table rows /\ rows <> [] /\ ascending_by Date rows /\
        List.length rows = List.length results) /\
  (forall df,
      df_by_type results = Ok df ->
      exists rows,
        df = Table rows /\ rows <> [] /\ ascending_by TDate rows /\
        List.length rows
        = List.length (List.concat (map groups_of results))).
Proof.
  split.
  - intros df H.
    apply df_daily_total_inv in H as (recs & rows & Hrecs & Hrows & Hne & ->).
    eexists; split; [reflexivity |].
    assert (Hlen : List.length
                     (sort_rows (fun a b => date_leb (Date a) (Date b)) rows)
                   = List.length results).
    { rewrite sort_rows_length.
      etransitivity; [apply (map_result_length _ _ _ Hrows) |].
      apply (map_result_length _ _ _ Hrecs). }
    split; [| split; [apply sort_by_date_ascending | exact Hlen]].
    apply length_nonempty. rewrite sort_rows_length.
    apply length_nonempty, Hne.
  - intros df H. unfold df_by_type, type_to_datetime in H.
    apply bind_Ok_inv in H as (recs & Hrecs & H).
    apply bind_Ok_inv in H as (df0 & Hdf0 & H).
    destruct recs as [| rec recs]; [discriminate |].
    cbn [pd_DataFrame column bind] in Hdf0.
    apply bind_Ok_inv in Hdf0 as (rows & Hrows & Hdf0). injection Hdf0 as <-.
    injection H as <-.
    eexists; split; [reflexivity |].
    apply map_result_length in Hrows.
    apply (for_each_count _ (fun e => List.length (groups_of e))) in Hrecs;
      [| apply entry_records_count].
    rewrite <- concat_groups_length in Hrecs.
    unfold CostByTypePoint in *.
    split; [| split; [apply sort_by_date_ascending |]].
    + apply length_nonempty. rewrite sort_rows_length, Hrows. discriminate.
    + rewrite sort_rows_length, Hrows. exact Hrecs.
Qed.

(** ** Name tags *)

Lemma tag_scan_find key tags :
  Forall is_dict tags ->
  tag_scan key tags
  = Ok (match find (tag_has_key key) tags with
        | Some t => value_of_tag t
        | None => JNull
        end).
Proof.
  induction 1 as [| t tags (fields & ->) _ IH]; simpl; [reflexivity |].
  unfold get_or_None; simpl.
  destruct (dict_get "Key" fields) as [k |]; simpl.
  - destruct (equals_str k key); [reflexivity | exact IH].
  - exact IH.
Qed.

(** X15. On a list of tags that are dicts, [tag_value] returns the value of
    the first tag whose key is the one asked for, [None] when that tag has
    no value, and [None] when no tag has the key; it raises nothing, also
    for tags without the [Key] entry. *)
Theorem tag_value_first_match (tags : list json) (key : string) :
  Forall is_dict tags ->
  tag_value (JArr tags) key
  = Ok (match find (tag_has_key key) tags with
        | Some t => value_of_tag t
        | None => JNull
        end).
Proof.
  intros H. unfold tag_value. destruct tags as [| t tags]; [reflexivity |].
  simpl truthy. cbn [negb iterate bind]. apply tag_scan_find, H.
Qed.

(* ------------------------------------------------------------------ *)
(** ** The further statements on the sample inputs *)

Lemma analyze_extremes_witness :
  sample_daily <> [] /\
  exists i r,
    nth_error sample_daily i = Some r /\
    max_cost (analyze (Table sample_daily)) = Cost r /\
    max_cost_date (analyze (Table sample_daily)) = Some (strftime (Date r)).
Proof.
  split; [discriminate |].
  destruct (analyze_extremes sample_daily) as ((i & r & H1 & H2 & H3 & _) & _);
    [discriminate |].
  exists i, r. auto.
Defined.

Lemma analyze_average_between_witness :
  sample_daily <> [] /\
  (min_cost (analyze (Table sample_daily))
   <= average_cost (analyze (Table sample_daily)))%Q /\
  (average_cost (analyze (Table sample_daily))
   <= max_cost (analyze (Table sample_daily)))%Q.
Proof.
  split; [discriminate |].
  apply (analyze_average_between sample_daily); discriminate.
Defined.

Lemma analyze_order_irrelevant_witness :
  Permutation sample_daily sample_total_points /\
  (total_cost (analyze (Table sample_daily))
   == total_cost (analyze (Table sample_total_points)))%Q.
Proof.
  assert (Hp : Permutation sample_daily sample_total_points)
    by apply perm_swap.
  split; [exact Hp |].
  apply (analyze_order_irrelevant sample_daily sample_total_points Hp).
Defined.

Lemma derive_daily_per_date_witness :
  In (mkCost (mkDate 2024 1 1) 3.50%Q) (rows_of sample_derived) /\
  (3.50 == cost_of_date (mkDate 2024 1 1) sample_by_type)%Q.
Proof.
  assert (Hin : In (mkCost (mkDate 2024 1 1) 3.50%Q) (rows_of sample_derived))
    by (left; reflexivity).
  split; [exact Hin |].
  destruct (derive_daily_per_date sample_by_type) as (out & Hout & Hrows).
  assert (Hdf : Table out = sample_derived)
    by (unfold sample_derived; rewrite Hout; reflexivity).
  rewrite <- Hdf in Hin.
  apply (Hrows _ Hin).
Defined.

Lemma derived_total_matches_bars_witness :
  derive_daily_from_type (Table sample_by_type) = Ok sample_derived /\
  (total_cost (analyze sample_derived)
   == sumQ (map snd (type_totals sample_by_type)))%Q.
Proof.
  split; [reflexivity |].
  apply (derived_total_matches_bars sample_by_type sample_derived).
  reflexivity.
Defined.

Lemma df_by_type_rows_witness :
  Forall2 (fun e ps => entry_points e = Ok ps) sample_grouped
    [[mkType (mkDate 2024 1 1) "t2.micro" 1.0%Q;
      mkType (mkDate 2024 1 1) "m5.large" 2.5%Q];
     [mkType (mkDate 2024 1 2) "t2.micro" 1.2%Q]] /\
  exists out,
    df_by_type sample_grouped = Ok (Table out) /\
    Permutation sample_by_type out.
Proof.
  assert (Hwf : Forall2 (fun e ps => entry_points e = Ok ps) sample_grouped
            [[mkType (mkDate 2024 1 1) "t2.micro" 1.0%Q;
              mkType (mkDate 2024 1 1) "m5.large" 2.5%Q];
             [mkType (mkDate 2024 1 2) "t2.micro" 1.2%Q]])
    by (repeat constructor).
  split; [exact Hwf |].
  destruct (df_by_type_rows _ _ Hwf) as (out & Hout & Hperm & _);
    [discriminate |].
  exists out. split; [exact Hout | exact Hperm].
Defined.

Lemma summary_extremes_are_entries_witness :
  Forall iso_start sample_total /\
  df_daily_total sample_total = Ok (Table sample_daily) /\
  exists e s amount,
    In e sample_total /\
    get_path start_path e = Ok (JStr s) /\
    get_path total_amount_path e = Ok amount /\
    float amount = Ok (max_cost (analyze (Table sample_daily))) /\
    max_cost_date (analyze (Table sample_daily)) = Some s.
Proof.
  assert (Hiso : Forall iso_start sample_total)
    by (repeat constructor; do 2 eexists; split; reflexivity).
  split; [exact Hiso |]. split; [reflexivity |].
  apply (summary_extremes_are_entries sample_total (Table sample_daily) Hiso).
  reflexivity.
Defined.


Lemma main_touches_only_outputs_witness :
  main "." "output" sample_now sample_files = Ok sample_run /\
  sample_run (type_path ".") = sample_files (type_path ".") /\
  sample_run (daily_path ".") = sample_files (daily_path ".").
Proof.
  split; [exact sample_run_Ok |].
  apply (main_touches_only_outputs "." "output" sample_now sample_files).
  exact sample_run_Ok.
Defined.

Lemma main_rerun_same_witness :
  main "." "output" sample_now sample_files = Ok sample_run /\
  exists fs'',
    main "." "output" sample_now sample_run = Ok fs'' /\
    forall p, fs'' p = sample_run p.
Proof.
  split; [exact sample_run_Ok |].
  apply (main_rerun_same "." "output" sample_now sample_files).
  exact sample_run_Ok.
Defined.

Lemma report_references_relative_witness :
  "output" <> "/" /\
  contains (img_src "images/cost_over_time.png")
    (report_text "output" sample_now zero_summary) /\
  contains (img_src "images/cost_per_instance_type.png")
    (report_text "output" sample_now zero_summary).
Proof.
  split; [discriminate |].
  destruct (report_references_relative "output" sample_now zero_summary)
    as (_ & _ & H1 & H2 & _); [discriminate |].
  split; assumption.
Defined.

Lemma main_exit_iff_witness :
  no_files (type_path ".") = None /\
  main "." "output" sample_now no_files
  = Raise (SystemExit
             "Falta archivo requerido: ./ec2_cost_data_per_instance_type.json").
Proof.
  split; [reflexivity |].
  destruct (main_exit_iff "." "output" sample_now no_files) as [Hexit _].
  apply (proj2 (Hexit _)). split; reflexivity.
Defined.

Lemma normalisers_row_counts_witness :
  df_daily_total sample_total = Ok (Table sample_daily) /\
  exists rows,
    Table sample_daily = Table rows /\ rows <> [] /\
    ascending_by Date rows /\
    List.length rows = List.length sample_total.
Proof.
  split; [reflexivity |].
  destruct (normalisers_row_counts sample_total) as [Hdaily _].
  apply (Hdaily (Table sample_daily)). reflexivity.
Defined.

Lemma tag_value_first_match_witness :
  Forall is_dict sample_tags /\
  tag_value (JArr sample_tags) "Name" = Ok (JStr "web-1").
Proof.
  assert (H : Forall is_dict sample_tags)
    by (repeat constructor; eexists; reflexivity).
  split; [exact H |].
  rewrite (tag_value_first_match sample_tags "Name" H). reflexivity.
Defined.

(** X17. A total series of one entry or more, all well formed, is
    normalised by [df_daily_total] to exactly the points of its entries,
    one per entry, none lost and none repeated, in ascending order of
    date. *)
Theorem total_series_round_trip (results : list json)
  (points : list CostPoint) :
  results <> [] ->
  Forall2 (fun e p => daily_point e = Ok p) results points ->
  exists out,
    df_daily_total results = Ok (Table out) /\
    Permutation points out /\
    ascending_by Date out /\
    List.length out = List.length results.
Proof. apply df_daily_total_rows. Qed.

Lemma total_series_round_trip_witness :
  sample_total <> [] /\
  Forall2 (fun e p => daily_point e = Ok p) sample_total sample_total_points /\
  exists out,
    df_daily_total sample_total = Ok (Table out) /\
    Permutation sample_total_points out /\
    ascending_by Date out /\
    List.length out = List.length sample_total.
Proof.
  assert (Hwf : Forall2 (fun e p => daily_point e = Ok p)
                  sample_total sample_total_points)
    by (repeat constructor).
  split; [discriminate |]. split; [exact Hwf |].
  apply (total_series_round_trip sample_total sample_total_points);
    [discriminate | exact Hwf].
Defined.

(* ================================================================== *)
(** * Exact sums and binary64 sums *)

(** The aggregation over any addition is, at the addition of the
    rationals, the aggregation of the pipeline. *)
Lemma add_to_group_with_Q {K} (cmp : K -> K -> comparison) k c groups :
  add_to_group_with Qplus cmp k c groups = add_to_group cmp k c groups.
Proof.
  induction groups as [| [k' s] rest IH]; simpl; [reflexivity |].
  destruct (cmp k k'); [reflexivity | reflexivity | rewrite IH; reflexivity].
Qed.

Lemma groupby_sum_with_Q {K} (cmp : K -> K -> comparison) rows :
  groupby_sum_with Qplus cmp rows = groupby_sum cmp rows.
Proof.
  unfold groupby_sum_with, groupby_sum. generalize (@nil (K * Q)).
  induction rows as [| r rows IH]; simpl; intros acc; [reflexivity |].
  rewrite add_to_group_with_Q. apply IH.
Qed.

Lemma insert_sorted_map {A B} (f : A -> B) (leb : B -> B -> bool) x l :
  insert_sorted leb (f x) (map f l)
  = map f (insert_sorted (fun a b => leb (f a) (f b)) x l).
Proof.
  induction l as [| y l IH]; simpl; [reflexivity |].
  destruct (leb (f x) (f y)); simpl; [reflexivity | rewrite IH; reflexivity].
Qed.

Lemma sort_rows_map {A B} (f : A -> B) (leb : B -> B -> bool) l :
  sort_rows leb (map f l)
  = map f (sort_rows (fun a b => leb (f a) (f b)) l).
Proof.
  induction l as [| x l IH]; simpl; [reflexivity |].
  rewrite IH. apply insert_sorted_map.
Qed.

Lemma derive_daily_from_type_with (rows : list CostByTypePoint) :
  derive_daily_from_type (Table rows)
  = Ok (Table (map (fun g => mkCost (fst g) (snd g))
                 (derive_daily_with Qplus
                    (map (fun r => (TDate r, TCost r)) rows)))).
Proof.
  unfold derive_daily_from_type, sort_values_Date, derive_daily_with.
  cbn [column bind]. rewrite groupby_sum_with_Q. do 2 f_equal.
  apply (sort_rows_map (fun g : Timestamp * Q => mkCost (fst g) (snd g))
           (fun a b => date_leb (Date a) (Date b))).
Qed.

Lemma Series_sum_with (xs : list Q) : Series_sum xs = sum_with Qplus 0%Q xs.
Proof. reflexivity. Qed.

(** C3, with the additions of the script.  For two days with the costs
    0.1, 0.1 and 0.3, 0.4 the input adds up to 0.9, the derived rows are 0.2
    and 0.7 and add up to 0.8999999999999999: the grand total is not
    preserved in binary64. *)
Lemma derived_total_differs_in_binary64 :
  sum_binary64 (map snd binary64_rows) = 0.9%float /\
  map snd (derive_daily_binary64 binary64_rows) = [0.2%float; 0.7%float] /\
  sum_binary64 (map snd (derive_daily_binary64 binary64_rows))
  = 0.8999999999999999%float /\
  PrimFloat.eqb
    (sum_binary64 (map snd (derive_daily_binary64 binary64_rows)))
    (sum_binary64 (map snd binary64_rows)) = false.
Proof. repeat split; vm_compute; reflexivity. Qed.

(** The mean of three costs of 0.1 in binary64 is 0.10000000000000002,
    above every cost. *)
Lemma mean_exceeds_max_in_binary64 :
  mean_binary64 binary64_tenths = 0.10000000000000002%float /\
  PrimFloat.ltb 0.1%float (mean_binary64 binary64_tenths) = true.
Proof. split; vm_compute; reflexivity. Qed.

(** C5, as claimed for every entry without an amount, fails: an entry of
    the grouped series with a period start and no [Groups] key has no
    amount at all, and [df_by_type] returns the table of the other
    entries. *)
Lemma entry_without_groups_not_surfaced :
  In (JObj fields_without_groups)
    (sample_grouped ++ [JObj fields_without_groups])%list /\
  missing_required_grouped (JObj fields_without_groups) /\
  groups_of (JObj fields_without_groups) = [] /\
  df_by_type (sample_grouped ++ [JObj fields_without_groups])%list
  = Ok (Table sample_by_type).
Proof.
  split; [right; right; left; reflexivity |].
  split; [right; reflexivity |].
  split; reflexivity.
Qed.
